(** * plot_training_metrics.py: a shallow embedding and its properties

    The script builds one literal dictionary [data], draws three stacked
    panels (loss, PESQ, STOI) with one line per model, saves the figure and
    prints a table of the last value of every metric.

    The embedding keeps the script's shape: a dictionary is an association
    list in insertion order, Python floats are binary64 values, the
    interpreter state (module globals, matplotlib's current figure, written
    files, standard output) is threaded through a state-and-exception monad,
    and the two [for] loops are list iterations in that monad. *)

From Stdlib Require Import ZArith List String Ascii Bool Lia.
From Stdlib Require Import Decimal DecimalString.
From Stdlib Require Import Floats.PrimFloat Floats.SpecFloat Floats.FloatOps.
Import ListNotations.

Set Warnings "-inexact-float".

Local Open Scope string_scope.
Local Open Scope Z_scope.

(* ================================================================== *)
(** ** Python run-time pieces used by the script *)

Module Py.

(** The built-in exceptions the script's expressions can raise. *)
Inductive exn : Type :=
| KeyError (key : string)
| IndexError
| TypeError
| ValueError.

(** A [dict] with string keys: association list in insertion order. *)
Definition dict (V : Type) : Type := list (string * V).

(** [d[k]] *)
Fixpoint getitem {V : Type} (d : dict V) (k : string) : exn + V :=
  match d with
  | [] => inl (KeyError k)
  | (k', v) :: rest => if String.eqb k' k then inr v else getitem rest k
  end.

(** [d.items()] *)
Definition items {V : Type} (d : dict V) : list (string * V) := d.

(** [l[i]] on a list: negative indices count from the end. *)
Definition index {A : Type} (l : list A) (i : Z) : exn + A :=
  let n := Z.of_nat (List.length l) in
  let j := if i <? 0 then i + n else i in
  if (0 <=? j) && (j <? n) then
    match nth_error l (Z.to_nat j) with
    | Some a => inr a
    | None => inl IndexError
    end
  else inl IndexError.

(** [enumerate(l)] *)
Fixpoint enumerate_from {A : Type} (start : Z) (l : list A) : list (Z * A) :=
  match l with
  | [] => []
  | a :: rest => (start, a) :: enumerate_from (start + 1) rest
  end.

Definition enumerate {A : Type} (l : list A) : list (Z * A) :=
  enumerate_from 0 l.

(** [zip(a, b, c)] *)
Fixpoint zip3 {A B C : Type} (a : list A) (b : list B) (c : list C)
  : list (A * B * C) :=
  match a, b, c with
  | x :: a', y :: b', z :: c' => (x, y, z) :: zip3 a' b' c'
  | _, _, _ => []
  end.

(** [s * n] for a string [s]. *)
Fixpoint repeat_str (s : string) (n : nat) : string :=
  match n with
  | O => ""
  | S n' => s ++ repeat_str s n'
  end.

Definition spaces (n : nat) : string := repeat_str " " n.

(** Format specs [<w] and [>w]: pad with spaces up to a minimum width. *)
Definition ljust (w : nat) (s : string) : string :=
  s ++ spaces (w - String.length s).

Definition rjust (w : nat) (s : string) : string :=
  spaces (w - String.length s) ++ s.

(** *** Format spec [.3f] on a binary64 value

    CPython prints the correctly rounded decimal expansion of the exact
    binary value (ties to even).  A finite float is [m * 2^e]; its thousandths
    are [1000 * m * 2^e] rounded to the nearest integer. *)

Definition round_half_even (n d : Z) : Z :=
  let q := n / d in
  let r := n mod d in
  match 2 * r ?= d with
  | Lt => q
  | Gt => q + 1
  | Eq => if Z.even q then q else q + 1
  end.

Definition thousandths (m : positive) (e : Z) : Z :=
  if 0 <=? e then 1000 * Z.pos m * 2 ^ e
  else round_half_even (1000 * Z.pos m) (2 ^ (- e)).

Definition digit_char (d : Z) : ascii :=
  ascii_of_nat (48 + Z.to_nat d).

Definition decimal (n : Z) : string :=
  NilZero.string_of_uint (N.to_uint (Z.to_N n)).

(** [t] thousandths written with three digits after the point. *)
Definition fixed3 (t : Z) : string :=
  decimal (t / 1000) ++ "." ++
  String (digit_char (t / 100 mod 10))
    (String (digit_char (t / 10 mod 10))
       (String (digit_char (t mod 10)) "")).

Definition sign_str (s : bool) : string := if s then "-" else "".

Definition format_3f (x : float) : string :=
  match Prim2SF x with
  | S754_nan => "nan"
  | S754_infinity s => sign_str s ++ "inf"
  | S754_zero s => sign_str s ++ "0.000"
  | S754_finite s m e => sign_str s ++ fixed3 (thousandths m e)
  end.

(** Format spec [>10.3f]. *)
Definition format_r10_3f (x : float) : string := rjust 10 (format_3f x).

(** Format spec [<30] on a string. *)
Definition format_l30 (s : string) : string := ljust 30 s.

Definition nl : string := String (ascii_of_nat 10) "".

End Py.

(* ================================================================== *)
(** ** The data model of the script *)

(** A value stored under a key of [data]: the epoch list, or the inner
    dictionary of a model (metric name to samples). *)
Inductive value : Type :=
| VList (l : list Z)
| VDict (d : Py.dict (list float)).

Definition Data : Type := Py.dict value.

(* ================================================================== *)
(** ** matplotlib objects, reduced to what the script sets *)

Record Line2D : Type := mkLine {
  xdata : list Z;
  ydata : list float;
  label : string;
  linewidth : Z;
  color : string;
  linestyle : string
}.

Record Axes : Type := mkAxes {
  lines : list Line2D;
  title : option (string * Z);          (* text, pad *)
  xlabel : option string;
  ylabel : option string;
  grid_on : bool;
  legend : option (list string);        (* entries, in drawing order *)
  xlim : option (Z * Z)
}.

Record Figure : Type := mkFigure {
  figsize : Z * Z;
  suptitle : option (string * Z);       (* text, fontsize *)
  axes : list Axes;
  tight : bool;
  adjusted : option (float * float)     (* right, hspace *)
}.

Inductive rcvalue : Type :=
| RcSize (w h : Z)
| RcBool (b : bool)
| RcFloat (f : float)
| RcInt (n : Z)
| RcStr (s : string).

(** The module globals the loops read. *)
Record Globals : Type := mkGlobals {
  g_data : Data;
  g_colors : list string;
  g_line_styles : list string
}.

(** Everything the script can read or change. *)
Record World : Type := mkWorld {
  globals : Globals;
  rcParams : Py.dict rcvalue;
  fig : Figure;
  files : list (string * (Figure * Z));  (* path, image content and dpi *)
  shown : list Figure;
  stdout : string
}.

(* ================================================================== *)
(** ** State and exceptions

    A statement maps a world to a world and either a value or a raised
    exception; what was done before the exception stays done. *)

Definition M (A : Type) : Type := World -> (Py.exn + A) * World.

Definition ret {A : Type} (a : A) : M A := fun w => (inr a, w).

Definition raise {A : Type} (e : Py.exn) : M A := fun w => (inl e, w).

Definition bind {A B : Type} (c : M A) (k : A -> M B) : M B :=
  fun w =>
    match c w with
    | (inr a, w') => k a w'
    | (inl e, w') => (inl e, w')
    end.

Definition lift {A : Type} (r : Py.exn + A) : M A := fun w => (r, w).

Definition gets {A : Type} (f : World -> A) : M A := fun w => (inr (f w), w).

Definition modify (f : World -> World) : M unit := fun w => (inr tt, f w).

Declare Scope py_scope.
Delimit Scope py_scope with py.
Notation "x <- c ;; k" := (bind c (fun x => k))
  (at level 61, c at next level, right associativity) : py_scope.
Notation "c ;; k" := (bind c (fun _ => k))
  (at level 61, right associativity) : py_scope.
Local Open Scope py_scope.

(** [for x in xs: body x] *)
Fixpoint for_each {A : Type} (xs : list A) (body : A -> M unit) : M unit :=
  match xs with
  | [] => ret tt
  | x :: rest => body x ;; for_each rest body
  end.

Definition result {A : Type} (r : (Py.exn + A) * World) : Py.exn + A := fst r.
Definition final {A : Type} (r : (Py.exn + A) * World) : World := snd r.

(* ------------------------------------------------------------------ *)
(** *** World updates *)

Definition set_globals (g : Globals) (w : World) : World :=
  mkWorld g (rcParams w) (fig w) (files w) (shown w) (stdout w).

Definition set_rcParams (rc : Py.dict rcvalue) (w : World) : World :=
  mkWorld (globals w) rc (fig w) (files w) (shown w) (stdout w).

Definition set_fig (f : Figure) (w : World) : World :=
  mkWorld (globals w) (rcParams w) f (files w) (shown w) (stdout w).

Definition set_files (fs : list (string * (Figure * Z))) (w : World) : World :=
  mkWorld (globals w) (rcParams w) (fig w) fs (shown w) (stdout w).

Definition set_shown (s : list Figure) (w : World) : World :=
  mkWorld (globals w) (rcParams w) (fig w) (files w) s (stdout w).

Definition set_stdout (s : string) (w : World) : World :=
  mkWorld (globals w) (rcParams w) (fig w) (files w) (shown w) s.

(** [print(s)] *)
Definition print (s : string) : M unit :=
  modify (fun w => set_stdout (stdout w ++ s ++ Py.nl) w).

(** [d[k] = v] on a dict: overwrite in place or append. *)
Fixpoint setitem {V : Type} (d : Py.dict V) (k : string) (v : V) : Py.dict V :=
  match d with
  | [] => [(k, v)]
  | (k', v') :: rest =>
      if String.eqb k' k then (k', v) :: rest else (k', v') :: setitem rest k v
  end.

(* ================================================================== *)
(** ** matplotlib calls *)

Module plt.

(** The keys [plt.style.use] never touches ([STYLE_BLACKLIST]). *)
Definition style_blacklist : list string :=
  ["interactive"; "backend"; "webagg.port"; "webagg.address";
   "webagg.port_retries"; "webagg.open_in_browser"; "backend_fallback";
   "toolbar"; "timezone"; "figure.max_open_warning"; "figure.raise_window";
   "savefig.directory"; "tk.window_focus"; "docstring.hardcopy"; "date.epoch"].

Definition blacklisted (kv : string * rcvalue) : bool :=
  existsb (String.eqb (fst kv)) style_blacklist.

(** [plt.style.use('default')].  [rcParams] is kept as the settings that
    differ from the default style: every key goes back to its default,
    except the blacklisted ones, which keep their value. *)
Definition style_use_default : M unit :=
  modify (fun w => set_rcParams (filter blacklisted (rcParams w)) w).

Definition rc_set (k : string) (v : rcvalue) : M unit :=
  modify (fun w => set_rcParams (setitem (rcParams w) k v) w).

Definition empty_axes : Axes :=
  mkAxes [] None None None false None None.

(** A new panel shows the grid when [rcParams['axes.grid']] is set. *)
Definition new_axes (grid : bool) : Axes :=
  mkAxes [] None None None grid None None.

Definition rc_grid (rc : Py.dict rcvalue) : bool :=
  match Py.getitem rc "axes.grid" with
  | inr (RcBool b) => b
  | _ => false
  end.

(** [fig, axes = plt.subplots(rows, 1, figsize=size)]: a fresh current
    figure; its panels are addressed by their index in [axes]. *)
Definition subplots (rows : nat) (size : Z * Z) : M unit :=
  modify (fun w =>
    set_fig (mkFigure size None
               (repeat (new_axes (rc_grid (rcParams w))) rows) false None) w).

Definition fig_suptitle (text : string) (fontsize : Z) : M unit :=
  modify (fun w =>
    let f := fig w in
    set_fig (mkFigure (figsize f) (Some (text, fontsize)) (axes f)
               (tight f) (adjusted f)) w).

(** [axes[idx]] *)
Definition axes_at (idx : Z) : M Axes :=
  a <- gets (fun w => axes (fig w)) ;;
  lift (Py.index a idx).

Fixpoint list_set {A : Type} (l : list A) (n : nat) (a : A) : list A :=
  match l, n with
  | [], _ => []
  | _ :: rest, O => a :: rest
  | x :: rest, S n' => x :: list_set rest n' a
  end.

Definition position (len idx : Z) : nat :=
  Z.to_nat (if idx <? 0 then idx + len else idx).

(** A method call [axes[idx].m(...)]: the panel is looked up, the method
    runs on it, and the panel object is changed in place. *)
Definition call (idx : Z) (method : Axes -> Py.exn + Axes) : M unit :=
  ax <- axes_at idx ;;
  ax' <- lift (method ax) ;;
  modify (fun w =>
    let f := fig w in
    let n := Z.of_nat (List.length (axes f)) in
    set_fig (mkFigure (figsize f) (suptitle f)
               (list_set (axes f) (position n idx) ax')
               (tight f) (adjusted f)) w).

(** [ax.plot(x, y, label=, linewidth=, color=, linestyle=)]: the two
    sequences must have the same length ([ValueError] otherwise).  The
    script passes [data['epoch']] as [x]; a dictionary there is outside the
    data model and is rejected.

    Two things matplotlib does here are left out.  It raises [ValueError]
    for a string that is no colour or no line style; the strings of the
    script ([#rrggbb], [-], [--]) are accepted.  And it renames a line whose
    label is empty to [_childN].  Statements about the exception raised, or
    about a run completing, are made for palettes of such strings
    ([plain_palette]); statements about labels for models with a name. *)
Definition plot (x : value) (y : list float) (lbl : string) (lw : Z)
    (c ls : string) (ax : Axes) : Py.exn + Axes :=
  match x with
  | VList xs =>
      if Nat.eqb (List.length xs) (List.length y) then
        inr (mkAxes (lines ax ++ [mkLine xs y lbl lw c ls]) (title ax)
               (xlabel ax) (ylabel ax) (grid_on ax) (legend ax) (xlim ax))
      else inl Py.ValueError
  | VDict _ => inl Py.TypeError
  end.

Definition set_title (t : string) (pad : Z) (ax : Axes) : Py.exn + Axes :=
  inr (mkAxes (lines ax) (Some (t, pad)) (xlabel ax) (ylabel ax)
         (grid_on ax) (legend ax) (xlim ax)).

Definition set_xlabel (t : string) (ax : Axes) : Py.exn + Axes :=
  inr (mkAxes (lines ax) (title ax) (Some t) (ylabel ax)
         (grid_on ax) (legend ax) (xlim ax)).

Definition set_ylabel (t : string) (ax : Axes) : Py.exn + Axes :=
  inr (mkAxes (lines ax) (title ax) (xlabel ax) (Some t)
         (grid_on ax) (legend ax) (xlim ax)).

Definition grid (b : bool) (ax : Axes) : Py.exn + Axes :=
  inr (mkAxes (lines ax) (title ax) (xlabel ax) (ylabel ax)
         b (legend ax) (xlim ax)).

(** A line is listed in the legend unless its label is empty or starts
    with an underscore. *)
Definition in_legend (l : Line2D) : bool :=
  match label l with
  | EmptyString => false
  | String c _ => negb (Ascii.eqb c "_"%char)
  end.

(** [ax.legend(bbox_to_anchor=, loc=)]: the entries are the labelled lines
    drawn so far; the placement arguments do not change them. *)
Definition make_legend (ax : Axes) : Py.exn + Axes :=
  inr (mkAxes (lines ax) (title ax) (xlabel ax) (ylabel ax) (grid_on ax)
         (Some (map label (filter in_legend (lines ax)))) (xlim ax)).

Definition set_xlim (lo hi : Z) (ax : Axes) : Py.exn + Axes :=
  inr (mkAxes (lines ax) (title ax) (xlabel ax) (ylabel ax) (grid_on ax)
         (legend ax) (Some (lo, hi))).

Definition tight_layout : M unit :=
  modify (fun w =>
    let f := fig w in
    set_fig (mkFigure (figsize f) (suptitle f) (axes f) true (adjusted f)) w).

Definition subplots_adjust (right hspace : float) : M unit :=
  modify (fun w =>
    let f := fig w in
    set_fig (mkFigure (figsize f) (suptitle f) (axes f) (tight f)
               (Some (right, hspace))) w).

(** [plt.savefig(path, dpi=)].  The working directory is taken as writable:
    the error of an unwritable path is not modelled, and no statement below
    says that [savefig] or the whole script completes on a given input. *)
Definition savefig (path : string) (dpi : Z) : M unit :=
  modify (fun w => set_files (setitem (files w) path (fig w, dpi)) w).

Definition show : M unit :=
  modify (fun w => set_shown (shown w ++ [fig w]) w).

End plt.

(* ================================================================== *)
(** ** The script *)

(** Lines 6-43. *)
Definition data : Data :=
  [ ("epoch", VList [1; 5; 10; 15; 20; 25; 30]);
    ("No Preprocessing", VDict
      [ ("loss", [2.491368; 2.128137; 2.081101; 2.049871; 2.021986; 1.998126; 1.975821]%float);
        ("pesq", [1.110734; 1.102173; 1.112359; 1.175780; 1.116488; 1.101073; 1.093451]%float);
        ("stoi", [0.346368; 0.498465; 0.558566; 0.489353; 0.477006; 0.470012; 0.450168]%float) ]);
    ("MelSEGAN + VMD + VAD", VDict
      [ ("loss", [2.584934; 2.233211; 2.177864; 2.136796; 2.102346; 2.073838; 2.046205]%float);
        ("pesq", [1.088980; 1.108260; 1.101254; 1.102191; 1.100971; 1.093437; 1.127178]%float);
        ("stoi", [0.438488; 0.400358; 0.447792; 0.450923; 0.424635; 0.499560; 0.454808]%float) ]);
    ("MelSEGAN + VMD + DTW", VDict
      [ ("loss", [2.131643; 1.736059; 1.696551; 1.672895; 1.654387; 1.640318; 1.629985]%float);
        ("pesq", [1.099543; 1.079158; 1.092555; 1.144524; 1.097848; 1.075867; 1.091959]%float);
        ("stoi", [0.595579; 0.597671; 0.614402; 0.640441; 0.627221; 0.616389; 0.616779]%float) ]);
    ("MelSEGAN + VMD + DTW + MAML", VDict
      [ ("loss", [1.811897; 1.475650; 1.442068; 1.421961; 1.406229; 1.394270; 1.385487]%float);
        ("pesq", [1.319452; 1.294990; 1.311066; 1.373429; 1.317418; 1.291040; 1.310351]%float);
        ("stoi", [0.536021; 0.537904; 0.552962; 0.576397; 0.564499; 0.554750; 0.555101]%float) ]);
    ("MelSEGAN + VAD + VMD + MAML", VDict
      [ ("loss", [1.938700; 1.674908; 1.633398; 1.602597; 1.576759; 1.555378; 1.534654]%float);
        ("pesq", [1.143429; 1.163673; 1.156317; 1.157301; 1.156020; 1.148109; 1.183537]%float);
        ("stoi", [0.306942; 0.280251; 0.313454; 0.315646; 0.297244; 0.349692; 0.318366]%float) ]);
    ("UNet + HiFigan + VMD + VAD", VDict
      [ ("loss", [1.943267; 1.659947; 1.623259; 1.598899; 1.577149; 1.558538; 1.541140]%float);
        ("pesq", [1.277344; 1.267499; 1.279213; 1.352147; 1.283961; 1.266234; 1.257469]%float);
        ("stoi", [0.374077; 0.538342; 0.603251; 0.528501; 0.515166; 0.507613; 0.486181]%float) ]);
    ("UNet + HiFigan + VMD + DTW", VDict
      [ ("loss", [1.793785; 1.532259; 1.498393; 1.475907; 1.455830; 1.438651; 1.422591]%float);
        ("pesq", [1.332881; 1.322608; 1.334831; 1.410936; 1.339786; 1.321288; 1.312141]%float);
        ("stoi", [0.387932; 0.558281; 0.625594; 0.548075; 0.534247; 0.526413; 0.504188]%float) ]) ].

(** Lines 60-61. *)
Definition colors : list string :=
  ["#1f77b4"; "#ff7f0e"; "#2ca02c"; "#d62728"; "#9467bd"; "#8c564b"; "#e377c2"].

Definition line_styles : list string :=
  ["-"; "-"; "-"; "-"; "-"; "--"; "--"].

(** Lines 63-65. *)
Definition metrics : list string := ["loss"; "pesq"; "stoi"].
Definition titles : list string := ["Training Loss"; "PESQ Score"; "STOI Score"].
Definition ylabels : list string := ["Loss"; "PESQ"; "STOI"].

Definition output_path : string := "training_metrics_comparison.png".

(** Reads of the module globals. *)
Definition read_data : M Data := gets (fun w => g_data (globals w)).
Definition read_colors : M (list string) := gets (fun w => g_colors (globals w)).
Definition read_line_styles : M (list string) :=
  gets (fun w => g_line_styles (globals w)).

(** [values[k]] where [values] is a value of [data]: only an inner
    dictionary takes a string subscript. *)
Definition subscript (values : value) (k : string) : Py.exn + list float :=
  match values with
  | VDict d => Py.getitem d k
  | VList _ => inl Py.TypeError
  end.

(** Lines 68-74, the body of the inner loop. *)
Definition plot_model (idx : Z) (metric : string) (it : Z * (string * value))
  : M unit :=
  let '(i, (model, values)) := it in
  if negb (String.eqb model "epoch") then
    _ <- plt.axes_at idx ;;
    d <- read_data ;;
    x <- lift (Py.getitem d "epoch") ;;
    y <- lift (subscript values metric) ;;
    cs <- read_colors ;;
    c <- lift (Py.index cs (i - 1)) ;;
    ls <- read_line_styles ;;
    s <- lift (Py.index ls (i - 1)) ;;
    plt.call idx (plt.plot x y model 2 c s)
  else ret tt.

(** Lines 67-81, the body of the outer loop. *)
Definition panel (it : Z * (string * string * string)) : M unit :=
  let '(idx, (metric, title, ylabel)) := it in
  d <- read_data ;;
  for_each (Py.enumerate (Py.items d)) (plot_model idx metric) ;;
  plt.call idx (plt.set_title title 15) ;;
  plt.call idx (plt.set_xlabel "Epoch") ;;
  plt.call idx (plt.set_ylabel ylabel) ;;
  plt.call idx (plt.grid true) ;;
  plt.call idx plt.make_legend ;;
  plt.call idx (plt.set_xlim 0 30).

(** Lines 67-81. *)
Definition plot_loop : M unit :=
  for_each (Py.enumerate (Py.zip3 metrics titles ylabels)) panel.

(** Lines 94-96, the body of the summary loop. *)
Definition print_row (it : string * value) : M unit :=
  let '(model, values) := it in
  if negb (String.eqb model "epoch") then
    l <- lift (subscript values "loss") ;;
    a <- lift (Py.index l (-1)) ;;
    p <- lift (subscript values "pesq") ;;
    b <- lift (Py.index p (-1)) ;;
    s <- lift (subscript values "stoi") ;;
    c <- lift (Py.index s (-1)) ;;
    print (Py.format_l30 model ++ " " ++ Py.format_r10_3f a ++ " " ++
           Py.format_r10_3f b ++ " " ++ Py.format_r10_3f c)
  else ret tt.

Definition rule : string := Py.repeat_str "-" 80.

Definition header : string :=
  Py.format_l30 "Model" ++ " " ++ Py.rjust 10 "Loss" ++ " " ++
  Py.rjust 10 "PESQ" ++ " " ++ Py.rjust 10 "STOI".

(** Lines 90-97: the summary (the Reporter). *)
Definition report : M unit :=
  print (Py.nl ++ "Final Metrics (at Epoch 30):") ;;
  print rule ;;
  print header ;;
  print rule ;;
  d <- read_data ;;
  for_each (Py.items d) print_row ;;
  print rule.

(** Lines 46-53. *)
Definition configure : M unit :=
  plt.style_use_default ;;
  plt.rc_set "figure.figsize" (RcSize 15 20) ;;
  plt.rc_set "axes.grid" (RcBool true) ;;
  plt.rc_set "grid.alpha" (RcFloat 0.3%float) ;;
  plt.rc_set "font.size" (RcInt 12) ;;
  plt.rc_set "axes.titlesize" (RcInt 14) ;;
  plt.rc_set "axes.labelsize" (RcInt 12) ;;
  plt.rc_set "legend.fontsize" (RcInt 10).

(** Lines 56-87: the chart (the Renderer). *)
Definition render (cs ls : list string) : M unit :=
  plt.subplots 3 (15, 20) ;;
  plt.fig_suptitle "Training Metrics Comparison" 16 ;;
  modify (fun w => set_globals (mkGlobals (g_data (globals w)) cs (g_line_styles (globals w))) w) ;;
  modify (fun w => set_globals (mkGlobals (g_data (globals w)) (g_colors (globals w)) ls) w) ;;
  plot_loop ;;
  plt.tight_layout ;;
  plt.subplots_adjust 0.85%float 0.3%float ;;
  plt.savefig output_path 300 ;;
  plt.show.

(** The whole script, with the three literals it binds as parameters. *)
Definition script (d : Data) (cs ls : list string) : M unit :=
  modify (fun w => set_globals (mkGlobals d (g_colors (globals w)) (g_line_styles (globals w))) w) ;;
  configure ;;
  render cs ls ;;
  report.

Definition main : M unit := script data colors line_styles.

(** A fresh interpreter: nothing bound, drawn, written or printed. *)
Definition fresh : World :=
  mkWorld (mkGlobals [] [] []) [] (mkFigure (0, 0) None [] false None) [] [] "".

(* ================================================================== *)
(** ** Vocabulary of the statements proved below *)

(* ------------------------------------------------------------------ *)
(** *** The phases of the script *)

(** The summary after its title line. *)
Definition report_table : M unit :=
  print rule ;;
  print header ;;
  print rule ;;
  d <- read_data ;;
  for_each (Py.items d) print_row ;;
  print rule.

(** The statements of [render] before the plot loop. *)
Definition render_setup (cs ls : list string) : M unit :=
  plt.subplots 3 (15, 20) ;;
  plt.fig_suptitle "Training Metrics Comparison" 16 ;;
  modify (fun w => set_globals (mkGlobals (g_data (globals w)) cs (g_line_styles (globals w))) w) ;;
  modify (fun w => set_globals (mkGlobals (g_data (globals w)) (g_colors (globals w)) ls) w).

(** The statements of [render] after the plot loop. *)
Definition render_finish : M unit :=
  plt.tight_layout ;;
  plt.subplots_adjust 0.85%float 0.3%float ;;
  plt.savefig output_path 300 ;;
  plt.show.

(** The world when the plot loop starts: the globals are bound, matplotlib
    is configured and a figure of three empty panels, grid on, is current;
    nothing has been written or printed. *)
Definition before_plot (d : Data) (cs ls : list string) (w : World) : World :=
  mkWorld (mkGlobals d cs ls)
    (rcParams (final (configure w)))
    (mkFigure (15, 20) (Some ("Training Metrics Comparison", 16))
       (repeat (plt.new_axes true) 3) false None)
    (files w) (shown w) (stdout w).

(** The world after the statements between the plot loop and the summary. *)
Definition after_plot (w : World) : World := final (render_finish w).

(** The world with the panels of the current figure replaced. *)
Definition with_axes (a : list Axes) (w : World) : World :=
  set_fig (mkFigure (figsize (fig w)) (suptitle (fig w)) a
             (tight (fig w)) (adjusted (fig w))) w.

Definition add_lines (new : list Line2D) (ax : Axes) : Axes :=
  mkAxes (lines ax ++ new) (title ax) (xlabel ax) (ylabel ax)
    (grid_on ax) (legend ax) (xlim ax).

(** What the six calls after the inner loop leave on a panel. *)
Definition decorate (t yl : string) (ax : Axes) : Axes :=
  mkAxes (lines ax) (Some (t, 15)) (Some "Epoch") (Some yl) true
    (Some (map label (filter plt.in_legend (lines ax)))) (Some (0, 30)).

Definition is_model {I : Type} (it : I * (string * value)) : bool :=
  negb (String.eqb (fst (snd it)) "epoch").

(* ------------------------------------------------------------------ *)
(** *** Properties of the world and statements keeping them *)

(** [keeps P c]: the statement [c] keeps the property [P] of the world,
    whether it returns or raises. *)
Definition keeps (P : World -> Prop) {A : Type} (c : M A) : Prop :=
  forall w, P w -> P (final (c w)).

Definition ignores_fig (P : World -> Prop) : Prop :=
  forall w f, P w -> P (set_fig f w).

Definition stable_print (P : World -> Prop) : Prop :=
  forall w s, P w -> P (set_stdout (stdout w ++ s) w).

Definition ignores_files (P : World -> Prop) : Prop :=
  forall w fs, P w -> P (set_files fs w).

Definition ignores_shown (P : World -> Prop) : Prop :=
  forall w s, P w -> P (set_shown s w).

Definition ignores_rcParams (P : World -> Prop) : Prop :=
  forall w rc, P w -> P (set_rcParams rc w).

(** Rebinding [colors] and [line_styles] leaves [data] bound as it was. *)
Definition ignores_palette (P : World -> Prop) : Prop :=
  forall w cs ls,
    P w -> P (set_globals (mkGlobals (g_data (globals w)) cs ls) w).

Definition data_is (d : Data) (w : World) : Prop := g_data (globals w) = d.

Definition printed_after (base : string) (w : World) : Prop :=
  exists out, stdout w = base ++ out.

Definition axes_are (a : list Axes) (w : World) : Prop := axes (fig w) = a.

Definition untouched (out : string) (fs : list (string * (Figure * Z)))
    (w : World) : Prop :=
  stdout w = out /\ files w = fs.

(* ------------------------------------------------------------------ *)
(** *** Datasets *)

(** The entries of a dataset other than the epoch list, in insertion order. *)
Definition models_of (d : Data) : list (string * value) :=
  filter (fun kv => negb (String.eqb (fst kv) "epoch")) (Py.items d).

Definition epochs_of (d : Data) : list Z :=
  match Py.getitem d "epoch" with
  | inr (VList l) => l
  | _ => []
  end.

Fixpoint increasing (l : list Z) : bool :=
  match l with
  | a :: (b :: _) as rest => (a <? b) && increasing rest
  | _ => true
  end.

(** [math.isfinite] *)
Definition isfinite (x : float) : bool :=
  match Prim2SF x with
  | S754_finite _ _ _ | S754_zero _ => true
  | _ => false
  end.

(** One metric sequence of a model fits the epoch list: same length, every
    sample finite. *)
Definition fits (epochs : list Z) (values : value) (metric : string) : Prop :=
  exists ys,
    subscript values metric = inr ys /\
    List.length ys = List.length epochs /\
    Forall (fun y => isfinite y = true) ys.

Definition minimum (l : list Z) : Z := fold_right Z.min (hd 0 l) l.
Definition maximum (l : list Z) : Z := fold_right Z.max (hd 0 l) l.

(* ------------------------------------------------------------------ *)
(** *** The summary *)

Definition title_line : string :=
  Py.nl ++ "Final Metrics (at Epoch 30):" ++ Py.nl.

(** The last sample of a metric of a model. *)
Definition last_of (values : value) (metric : string) : float :=
  match subscript values metric with
  | inr ys => List.last ys 0%float
  | inl _ => 0%float
  end.

(** The text of a table row as the summary is described: the name padded to
    30 columns, then the last loss, PESQ and STOI samples with three
    decimals, each right-aligned in 10 columns. *)
Definition table_row (kv : string * value) : string :=
  Py.format_l30 (fst kv) ++ " " ++
  Py.format_r10_3f (last_of (snd kv) "loss") ++ " " ++
  Py.format_r10_3f (last_of (snd kv) "pesq") ++ " " ++
  Py.format_r10_3f (last_of (snd kv) "stoi") ++ Py.nl.

Definition table (d : Data) : string :=
  title_line ++ rule ++ Py.nl ++ header ++ Py.nl ++ rule ++ Py.nl ++
  String.concat "" (map table_row (models_of d)) ++ rule ++ Py.nl.

(** The rows the summary loop prints for a list of items. *)
Definition rows_text (items : list (string * value)) : string :=
  String.concat "" (map table_row
     (filter (fun kv => negb (String.eqb (fst kv) "epoch")) items)).

Definition is_digit (c : ascii) : bool :=
  (48 <=? nat_of_ascii c)%nat && (nat_of_ascii c <=? 57)%nat.

Fixpoint all_digits (s : string) : bool :=
  match s with
  | EmptyString => true
  | String c rest => is_digit c && all_digits rest
  end.

(** An optional minus sign, at least one digit, a point, three digits. *)
Definition three_decimals (s : string) : Prop :=
  exists sgn int a b c,
    s = sgn ++ int ++ "." ++ String a (String b (String c "")) /\
    (sgn = "" \/ sgn = "-") /\
    int <> "" /\
    all_digits int = true /\
    is_digit a = true /\ is_digit b = true /\ is_digit c = true.

(** A field of 10 columns holding [body] right-aligned: spaces first, and
    exactly 10 characters when [body] fits. *)
Definition right_aligned (field body : string) : Prop :=
  field = Py.spaces (10 - String.length body) ++ body /\
  ((String.length body <= 10)%nat -> String.length field = 10%nat).

Definition field_ok (x : float) : Prop :=
  right_aligned (Py.format_r10_3f x) (Py.format_3f x) /\
  (isfinite x = true -> three_decimals (Py.format_3f x)).

(** The world in which the summary starts on the literal dataset. *)
Definition at_summary : World :=
  set_globals (mkGlobals data colors line_styles) fresh.

(* ------------------------------------------------------------------ *)
(** *** The chart *)

(** The line [ln] is the one the inner loop draws for item [it] of
    [enumerate(data.items())] in the panel of [metric], with the globals
    bound to [d], [cs] and [ls]. *)
Definition drawn_for (d : Data) (cs ls : list string) (metric : string)
    (ln : Line2D) (it : Z * (string * value)) : Prop :=
  Py.getitem d "epoch" = inr (VList (xdata ln)) /\
  subscript (snd (snd it)) metric = inr (ydata ln) /\
  label ln = fst (snd it) /\
  linewidth ln = 2 /\
  Py.index cs (fst it - 1) = inr (color ln) /\
  Py.index ls (fst it - 1) = inr (linestyle ln) /\
  List.length (xdata ln) = List.length (ydata ln).

Definition style_of (ln : Line2D) : string * string * string :=
  (label ln, color ln, linestyle ln).

(** The assignment by position: the [i]-th name gets entry [i mod len] of
    the palette and of the style list. *)
Definition assigned_from (cs ls : list string) (start : nat) (names : list string)
  : list (string * string * string) :=
  map (fun it : nat * string =>
         (snd it,
          nth (fst it mod List.length cs) cs "",
          nth (fst it mod List.length ls) ls ""))
      (combine (seq start (List.length names)) names).

Definition assigned (cs ls : list string) (names : list string) :=
  assigned_from cs ls 0 names.

Definition no_epoch_key (series : Data) : bool :=
  forallb (fun kv => negb (String.eqb (fst kv) "epoch")) series.

(** The first series would be drawn with the last palette entry and the last
    line style. *)
Definition first_series_wraps : Prop :=
  forall ax ln,
    In ax (axes (fig (final (main fresh)))) ->
    hd_error (lines ax) = Some ln ->
    Py.index colors (-1) = inr (color ln) /\
    Py.index line_styles (-1) = inr (linestyle ln).

(** Every panel's x range would run from the smallest to the largest epoch
    of the dataset. *)
Definition xlim_spans_epochs : Prop :=
  forall ax,
    In ax (axes (fig (final (main fresh)))) ->
    xlim ax = Some (minimum (epochs_of data), maximum (epochs_of data)).

(* ------------------------------------------------------------------ *)
(** *** Two runs *)

(** Two worlds reached from the starting worlds [i1] and [i2] agree on what
    the plot loop and the summary compute with (globals, current figure) and on
    what the run has produced so far: the same text printed, the same figures
    shown, and either no file written or the same image under
    [output_path]. *)
Definition sim (i1 i2 w1 w2 : World) : Prop :=
  globals w1 = globals w2 /\
  fig w1 = fig w2 /\
  (exists out, stdout w1 = stdout i1 ++ out /\ stdout w2 = stdout i2 ++ out) /\
  (exists s, shown w1 = shown i1 ++ s /\ shown w2 = shown i2 ++ s)%list /\
  ((files w1 = files i1 /\ files w2 = files i2) \/
   (exists img, Py.getitem (files w1) output_path = inr img /\
                Py.getitem (files w2) output_path = inr img)).

(** A statement run in two agreeing worlds ends the same way in two
    agreeing worlds. *)
Definition respects (i1 i2 : World) {A : Type} (c : M A) : Prop :=
  forall w1 w2,
    sim i1 i2 w1 w2 ->
    result (c w1) = result (c w2) /\ sim i1 i2 (final (c w1)) (final (c w2)).

(* ------------------------------------------------------------------ *)
(** *** Datasets other than the literal one *)

(** Two epochs, a [loss] sequence one sample shorter than [pesq]. *)
Definition short_loss : Data :=
  [ ("epoch", VList [1; 5]);
    ("A", VDict [ ("loss", [0.5]%float);
                  ("pesq", [1.0; 1.1]%float);
                  ("stoi", [0.5; 0.6]%float) ]) ].

(** No epochs and no samples: every sequence is empty, none is too short. *)
Definition no_samples : Data :=
  [ ("epoch", VList []);
    ("A", VDict [ ("loss", []); ("pesq", []); ("stoi", []) ]) ].

(** Scenario 2 of the description: one series of one sample. *)
Definition one_point : Data :=
  [ ("epoch", VList [1]);
    ("A", VDict [ ("loss", [0.5]%float); ("pesq", [1.0]%float);
                  ("stoi", [0.5]%float) ]) ].

(** A dictionary whose first key is a model: that model is item 0 and only
    then does [i - 1] select the last palette entry and the last style. *)
Definition model_first : Data :=
  [ ("A", VDict [ ("loss", [0.5]%float); ("pesq", [1.0]%float);
                  ("stoi", [0.5]%float) ]);
    ("epoch", VList [1]) ].

(** Eight models for seven colours: [colors[7]] raises, nothing wraps. *)
Definition eight_models : Data :=
  ("epoch", VList [1]) ::
  map (fun name => (name, VDict [ ("loss", [0.5]%float); ("pesq", [1.0]%float);
                                  ("stoi", [0.5]%float) ]))
    ["A"; "B"; "C"; "D"; "E"; "F"; "G"; "H"].

(** A dataset that ends at epoch 40 still gets the title of epoch 30. *)
Definition forty_epochs : Data :=
  [ ("epoch", VList [10; 40]);
    ("A", VDict [ ("loss", [0.5; 0.25]%float); ("pesq", [1.0; 1.5]%float);
                  ("stoi", [0.5; 0.75]%float) ]) ].

(* ------------------------------------------------------------------ *)
(** *** When a run completes *)

(** Every model has the three metrics, each with at least one sample: what
    the summary loop needs to print all rows. *)
Definition reportable (d : Data) : Prop :=
  forall name values m,
    In (name, values) (Py.items d) ->
    String.eqb name "epoch" = false ->
    In m metrics ->
    exists ys, subscript values m = inr ys /\ ys <> [].


(** The line drawn for a model: the epochs against one of its sequences. *)
Definition line_of (xs : list Z) (metric : string) (cs ls : list string)
    (it : nat * (string * value)) : Line2D :=
  mkLine xs
    (match subscript (snd (snd it)) metric with inr ys => ys | inl _ => [] end)
    (fst (snd it)) 2
    (nth (fst it) cs "") (nth (fst it) ls "").

(** The panel of a metric in a completed run on the epochs [xs] and the
    models [series]. *)
Definition panel_of (xs : list Z) (series : Data) (cs ls : list string)
    (metric t yl : string) : Axes :=
  decorate t yl
    (add_lines
       (map (line_of xs metric cs ls)
          (combine (seq 0 (List.length series)) series))
       plt.empty_axes).

(** Two models, the second with an empty [pesq] sequence. *)
Definition second_row_empty : Data :=
  [ ("epoch", VList [1]);
    ("A", VDict [ ("loss", [0.5]%float); ("pesq", [1.0]%float);
                  ("stoi", [0.5]%float) ]);
    ("B", VDict [ ("loss", [0.5]%float); ("pesq", []);
                  ("stoi", [0.5]%float) ]) ].

(** A statement that neither reads nor writes standard output: run after
    some text was printed, it does the same and the text is still there. *)
Definition blind {A : Type} (c : M A) : Prop :=
  forall s w, c (set_stdout s w) = (fst (c w), set_stdout s (snd (c w))).

(** A dataset without models: every key is [epoch]. *)
Definition no_models (d : Data) : bool :=
  forallb (fun kv => String.eqb (fst kv) "epoch") d.

(* ------------------------------------------------------------------ *)
(** *** Colour and style by position *)




(* ------------------------------------------------------------------ *)
(** *** Widths of a row *)

(** A field of at least 30 columns holding [body] left-aligned: spaces
    after it, and exactly 30 characters when [body] fits. *)
Definition left_aligned (field body : string) : Prop :=
  field = body ++ Py.spaces (30 - String.length body) /\
  ((String.length body <= 30)%nat -> String.length field = 30%nat).

(** The width of a row with its newline: the four fields at their minimum
    width or wider, three spaces between them. *)
Definition row_length (kv : string * value) : nat :=
  (Nat.max 30 (String.length (fst kv)) + 1 +
   Nat.max 10 (String.length (Py.format_3f (last_of (snd kv) "loss"))) + 1 +
   Nat.max 10 (String.length (Py.format_3f (last_of (snd kv) "pesq"))) + 1 +
   Nat.max 10 (String.length (Py.format_3f (last_of (snd kv) "stoi"))) + 1)%nat.

(** All rows of the table of [d] would have one width. *)
Definition rows_same_width (d : Data) : Prop :=
  forall kv1 kv2,
    In kv1 (models_of d) -> In kv2 (models_of d) ->
    String.length (table_row kv1) = String.length (table_row kv2).

(** Two models, the first with a name of 39 characters. *)
Definition uneven_rows : Data :=
  [ ("epoch", VList [1]);
    ("MelSEGAN + VMD + DTW + MAML + attention",
     VDict [ ("loss", [0.5]%float); ("pesq", [1.0]%float);
             ("stoi", [0.5]%float) ]);
    ("B", VDict [ ("loss", [0.5]%float); ("pesq", [1.0]%float);
                  ("stoi", [0.5]%float) ]) ].

(* ------------------------------------------------------------------ *)
(** *** Palettes and names matplotlib takes as they are *)






(** Every model has a name: no label is empty. *)
Definition named (series : Data) : bool :=
  forallb (fun kv => negb (String.eqb (fst kv) "")) series.


(* ------------------------------------------------------------------ *)
(** *** The configuration of lines 47-53 *)

(** The seven entries the script assigns in [plt.rcParams]. *)
Definition settings : Py.dict rcvalue :=
  [ ("figure.figsize", RcSize 15 20);
    ("axes.grid", RcBool true);
    ("grid.alpha", RcFloat 0.3%float);
    ("font.size", RcInt 12);
    ("axes.titlesize", RcInt 14);
    ("axes.labelsize", RcInt 12);
    ("legend.fontsize", RcInt 10) ].

(* ================================================================== *)
(** ** Reasoning about statements *)

Lemma bind_inr {A B : Type} (c : M A) (k : A -> M B) w a w' :
  c w = (inr a, w') -> bind c k w = k a w'.
Proof. unfold bind. intros ->. reflexivity. Qed.

Lemma bind_inl {A B : Type} (c : M A) (k : A -> M B) w e w' :
  c w = (inl e, w') -> bind c k w = (inl e, w').
Proof. unfold bind. intros ->. reflexivity. Qed.

Lemma bind_modify {B : Type} (f : World -> World) (k : unit -> M B) w :
  bind (modify f) k w = k tt (f w).
Proof. reflexivity. Qed.

Lemma bind_gets {A B : Type} (f : World -> A) (k : A -> M B) w :
  bind (gets f) k w = k (f w) w.
Proof. reflexivity. Qed.

Lemma bind_lift {A B : Type} (r : Py.exn + A) (k : A -> M B) w :
  bind (lift r) k w =
  match r with inr a => k a w | inl e => (inl e, w) end.
Proof. unfold bind, lift. destruct r; reflexivity. Qed.

Lemma getitem_setitem {V : Type} (d : Py.dict V) k v :
  Py.getitem (setitem d k v) k = inr v.
Proof.
  induction d as [| [k' v'] rest IH]; cbn.
  - now rewrite String.eqb_refl.
  - destruct (String.eqb k' k) eqn:E; cbn; rewrite E; [reflexivity | exact IH].
Qed.

Lemma getitem_setitem_other {V : Type} (d : Py.dict V) k k' v :
  k <> k' -> Py.getitem (setitem d k v) k' = Py.getitem d k'.
Proof.
  intros Hk. induction d as [| [k0 v0] rest IH]; cbn.
  - destruct (String.eqb k k') eqn:E; [apply String.eqb_eq in E; contradiction |].
    reflexivity.
  - destruct (String.eqb k0 k) eqn:E; cbn.
    + apply String.eqb_eq in E. subst k0.
      destruct (String.eqb k k') eqn:E'; [| reflexivity].
      apply String.eqb_eq in E'. contradiction.
    + destruct (String.eqb k0 k'); [reflexivity | exact IH].
Qed.

(** After lines 46-53 the grid of new panels is on, whatever was configured
    before. *)
Lemma rc_grid_configured rc v1 v3 v4 v5 v6 v7 :
  plt.rc_grid
    (setitem (setitem (setitem (setitem (setitem (setitem (setitem rc
       "figure.figsize" v1) "axes.grid" (RcBool true)) "grid.alpha" v3)
       "font.size" v4) "axes.titlesize" v5) "axes.labelsize" v6)
       "legend.fontsize" v7) = true.
Proof.
  unfold plt.rc_grid.
  rewrite !getitem_setitem_other by discriminate.
  now rewrite getitem_setitem.
Qed.

(** Run the first statement of a sequence: one goal where it raised, one
    where it returned; [H] names the equation of its run. *)
Ltac run_head H :=
  cbn beta;
  lazymatch goal with
  | |- context [bind ?c ?k ?w] =>
      let e := fresh "e" in
      let w1 := fresh "w" in
      destruct (c w) as [[e | []] w1] eqn:H;
      [ rewrite (bind_inl c k w _ _ H) | rewrite (bind_inr c k w _ _ H) ];
      cbn beta
  end.

(** *** Invariants: a property of the world kept by a statement,
    whether it returns or raises. *)

Section Keeps.
Variable P : World -> Prop.

Lemma keeps_ret {A : Type} (a : A) : keeps P (ret a).
Proof. intros w H. exact H. Qed.

Lemma keeps_lift {A : Type} (r : Py.exn + A) : keeps P (lift r).
Proof. intros w H. exact H. Qed.

Lemma keeps_gets {A : Type} (f : World -> A) : keeps P (gets f).
Proof. intros w H. exact H. Qed.

Lemma keeps_modify (f : World -> World) :
  (forall w, P w -> P (f w)) -> keeps P (modify f).
Proof. intros Hf w H. apply Hf, H. Qed.

Lemma keeps_bind {A B : Type} (c : M A) (k : A -> M B) :
  keeps P c -> (forall a, keeps P (k a)) -> keeps P (bind c k).
Proof.
  intros Hc Hk w H. unfold bind.
  specialize (Hc w H). destruct (c w) as [[e | a] w']; cbn in *.
  - exact Hc.
  - apply Hk, Hc.
Qed.

Lemma keeps_for_each {A : Type} (xs : list A) (body : A -> M unit) :
  (forall x, In x xs -> keeps P (body x)) -> keeps P (for_each xs body).
Proof.
  induction xs as [| x rest IH]; intros Hb; cbn [for_each].
  - apply keeps_ret.
  - apply keeps_bind.
    + apply Hb. left. reflexivity.
    + intros _. apply IH. intros y Hy. apply Hb. right. exact Hy.
Qed.

Lemma keeps_if {A : Type} (b : bool) (c1 c2 : M A) :
  keeps P c1 -> keeps P c2 -> keeps P (if b then c1 else c2).
Proof. destruct b; auto. Qed.
End Keeps.

Create HintDb keeps_db.
#[local] Hint Resolve keeps_ret keeps_lift keeps_gets keeps_bind keeps_if : keeps_db.

(** A property that looks only at fields a statement never writes is kept.
    The next lemmas instantiate this for the statements of the script. *)

Lemma keeps_axes_at P idx : keeps P (plt.axes_at idx).
Proof. unfold plt.axes_at. auto with keeps_db. Qed.

Lemma keeps_call P idx m : ignores_fig P -> keeps P (plt.call idx m).
Proof.
  intros HP. unfold plt.call.
  apply keeps_bind; [apply keeps_axes_at | intros ax].
  apply keeps_bind; [apply keeps_lift | intros ax'].
  apply keeps_modify. intros w H. apply HP, H.
Qed.

Lemma keeps_print P s : stable_print P -> keeps P (print s).
Proof. intros HP. apply keeps_modify. intros w H. apply HP, H. Qed.

Lemma keeps_plot_model P idx metric it :
  ignores_fig P -> keeps P (plot_model idx metric it).
Proof.
  intros HP. destruct it as [i [model values]]. unfold plot_model.
  apply keeps_if; [| apply keeps_ret].
  unfold read_data, read_colors, read_line_styles.
  do 8 (apply keeps_bind;
        [first [apply keeps_axes_at | apply keeps_gets | apply keeps_lift]
        | intros ?]).
  apply keeps_call, HP.
Qed.

Lemma keeps_panel P it : ignores_fig P -> keeps P (panel it).
Proof.
  intros HP. destruct it as [idx [[metric title] ylabel]]. unfold panel.
  apply keeps_bind; [apply keeps_gets | intros d].
  apply keeps_bind.
  { apply keeps_for_each. intros x _. apply keeps_plot_model, HP. }
  intros _.
  do 5 (apply keeps_bind; [apply keeps_call, HP | intros _]).
  apply keeps_call, HP.
Qed.

Lemma keeps_plot_loop P : ignores_fig P -> keeps P plot_loop.
Proof.
  intros HP. unfold plot_loop. apply keeps_for_each.
  intros x _. apply keeps_panel, HP.
Qed.

Lemma keeps_print_row P it : stable_print P -> keeps P (print_row it).
Proof.
  intros HP. destruct it as [model values]. unfold print_row.
  apply keeps_if; [| apply keeps_ret].
  do 6 (apply keeps_bind; [apply keeps_lift | intros ?]).
  apply keeps_print, HP.
Qed.

Lemma report_unfold :
  report = (print (Py.nl ++ "Final Metrics (at Epoch 30):") ;; report_table).
Proof. reflexivity. Qed.

Lemma keeps_report_table P : stable_print P -> keeps P report_table.
Proof.
  intros HP. unfold report_table.
  do 3 (apply keeps_bind; [apply keeps_print, HP | intros _]).
  apply keeps_bind; [apply keeps_gets | intros d].
  apply keeps_bind; [| intros _; apply keeps_print, HP].
  apply keeps_for_each. intros x _. apply keeps_print_row, HP.
Qed.

Lemma keeps_report P : stable_print P -> keeps P report.
Proof.
  intros HP. rewrite report_unfold.
  apply keeps_bind; [apply keeps_print, HP | intros _].
  apply keeps_report_table, HP.
Qed.

Lemma keeps_configure P : ignores_rcParams P -> keeps P configure.
Proof.
  intros HP. unfold configure, plt.style_use_default, plt.rc_set.
  do 7 (apply keeps_bind;
        [apply keeps_modify; intros w H; apply HP, H | intros _]).
  apply keeps_modify; intros w H; apply HP, H.
Qed.

Lemma render_unfold cs ls w :
  render cs ls w = (render_setup cs ls ;; plot_loop ;; render_finish) w.
Proof. reflexivity. Qed.

Lemma keeps_render_setup P cs ls :
  ignores_fig P -> ignores_palette P -> keeps P (render_setup cs ls).
Proof.
  intros Hf Hp. unfold render_setup, plt.subplots, plt.fig_suptitle.
  do 2 (apply keeps_bind;
        [apply keeps_modify; intros w H; apply Hf, H | intros _]).
  apply keeps_bind; [| intros _];
    apply keeps_modify; intros w H; apply Hp, H.
Qed.

Lemma keeps_render_finish P :
  ignores_fig P -> ignores_files P -> ignores_shown P -> keeps P render_finish.
Proof.
  intros Hf Hfi Hs.
  unfold render_finish, plt.tight_layout, plt.subplots_adjust, plt.savefig, plt.show.
  do 2 (apply keeps_bind;
        [apply keeps_modify; intros w H; apply Hf, H | intros _]).
  apply keeps_bind; [apply keeps_modify; intros w H; apply Hfi, H | intros _].
  apply keeps_modify; intros w H; apply Hs, H.
Qed.

Lemma keeps_render P cs ls :
  ignores_fig P -> ignores_palette P -> ignores_files P -> ignores_shown P ->
  keeps P (render cs ls).
Proof.
  intros Hf Hp Hfi Hs w H. rewrite render_unfold. revert w H.
  apply keeps_bind; [apply keeps_render_setup; assumption | intros _].
  apply keeps_bind; [apply keeps_plot_loop; assumption | intros _].
  apply keeps_render_finish; assumption.
Qed.

Lemma script_unfold d cs ls w :
  script d cs ls w =
  (configure ;; render cs ls ;; report)
    (set_globals (mkGlobals d (g_colors (globals w)) (g_line_styles (globals w))) w).
Proof. reflexivity. Qed.

(* ================================================================== *)
(** ** The data stays as constructed *)

Lemma data_is_ignores d :
  ignores_fig (data_is d) /\ ignores_palette (data_is d) /\
  ignores_files (data_is d) /\ ignores_shown (data_is d) /\
  ignores_rcParams (data_is d) /\ stable_print (data_is d).
Proof. repeat split; intros w ?; intros; assumption. Qed.

(** C9. Neither the chart nor the summary changes the dataset: after
    [render], after [report] and after the whole script the global [data]
    holds exactly the value it was bound to, epoch list and every metric
    sequence included. *)
Theorem dataset_not_mutated (d : Data) (cs ls : list string) (w : World) :
  g_data (globals (final (render cs ls w))) = g_data (globals w) /\
  g_data (globals (final (report w))) = g_data (globals w) /\
  g_data (globals (final (script d cs ls w))) = d.
Proof.
  split; [| split].
  - destruct (data_is_ignores (g_data (globals w))) as (Hf & Hp & Hfi & Hs & _).
    apply (keeps_render (data_is (g_data (globals w)))); auto. reflexivity.
  - destruct (data_is_ignores (g_data (globals w))) as (_ & _ & _ & _ & _ & Ho).
    apply (keeps_report (data_is (g_data (globals w)))); auto. reflexivity.
  - destruct (data_is_ignores d) as (Hf & Hp & Hfi & Hs & Hr & Ho).
    rewrite script_unfold.
    apply (keeps_bind (data_is d)); [apply keeps_configure, Hr | intros _ | reflexivity].
    apply keeps_bind; [apply keeps_render; assumption | intros _].
    apply keeps_report, Ho.
Qed.

(* ================================================================== *)
(** ** The title line of the summary *)

Lemma string_app_assoc (a b c : string) : (a ++ b) ++ c = a ++ (b ++ c).
Proof. induction a as [| x a IH]; cbn; [reflexivity | now rewrite IH]. Qed.

Lemma string_app_nil_r (a : string) : a ++ "" = a.
Proof. induction a as [| x a IH]; cbn; [reflexivity | now rewrite IH]. Qed.

Lemma printed_after_stable base : stable_print (printed_after base).
Proof.
  intros w s [out H]. exists (out ++ s). cbn. rewrite H.
  apply string_app_assoc.
Qed.

(** C10. Whatever the world holds (any dataset, any last epoch), the text
    the summary writes starts with an empty line and the literal title
    [Final Metrics (at Epoch 30):]; the number in it is not computed. *)
Theorem report_title_is_fixed (w : World) :
  exists rest, stdout (final (report w)) = stdout w ++ title_line ++ rest.
Proof.
  rewrite report_unfold. unfold print at 1. rewrite bind_modify.
  set (w1 := set_stdout _ w).
  destruct (keeps_report_table (printed_after (stdout w1))
              (printed_after_stable _) w1) as [rest H].
  { exists "". symmetry. apply string_app_nil_r. }
  exists rest. rewrite H. subst w1. cbn [stdout set_stdout].
  unfold title_line. rewrite !string_app_assoc. reflexivity.
Qed.

(* ================================================================== *)
(** ** The literal dataset *)

(** C7. In the literal [data] the epoch list is [1,5,10,15,20,25,30], strictly
    increasing and of length 7; there are seven models, and each of their
    [loss], [pesq] and [stoi] sequences has that same length 7 and holds only
    finite values. *)
Theorem data_invariant :
  epochs_of data = [1; 5; 10; 15; 20; 25; 30] /\
  increasing (epochs_of data) = true /\
  List.length (epochs_of data) = 7%nat /\
  List.length (models_of data) = 7%nat /\
  Forall (fun kv => Forall (fits (epochs_of data) (snd kv)) metrics)
    (models_of data).
Proof.
  repeat split.
  unfold models_of, Py.items, data, metrics. cbn [filter fst snd String.eqb Ascii.eqb Bool.eqb negb].
  repeat (apply Forall_cons; [| try apply Forall_nil]);
    (eexists; split; [reflexivity | split; [reflexivity |]]);
    repeat (apply Forall_cons; [vm_compute; reflexivity |]); apply Forall_nil.
Qed.

(* ================================================================== *)
(** ** The summary table *)

(** C1. Run on the literal dataset, the script completes and prints the
    title, the header between two rules, then exactly seven rows, one per
    model in insertion order, each showing the last sample of loss, PESQ and
    STOI with three decimals, then a closing rule.  The first row is the one
    of "No Preprocessing" and shows 1.976, 1.093 and 0.450, the renderings of
    1.975821, 1.093451 and 0.450168. *)
Theorem summary_of_literal_data :
  result (main fresh) = inr tt /\
  stdout (final (main fresh)) = table data /\
  map fst (models_of data) =
    ["No Preprocessing"; "MelSEGAN + VMD + VAD"; "MelSEGAN + VMD + DTW";
     "MelSEGAN + VMD + DTW + MAML"; "MelSEGAN + VAD + VMD + MAML";
     "UNet + HiFigan + VMD + VAD"; "UNet + HiFigan + VMD + DTW"] /\
  List.length (map table_row (models_of data)) = 7%nat /\
  nth_error (map table_row (models_of data)) 0 =
    Some ("No Preprocessing                    1.976      1.093      0.450" ++ Py.nl) /\
  option_map (fun kv => (fst kv, last_of (snd kv) "loss",
                         last_of (snd kv) "pesq", last_of (snd kv) "stoi"))
    (nth_error (models_of data) 0) =
    Some ("No Preprocessing", 1.975821, 1.093451, 0.450168)%float /\
  Py.format_3f 1.975821%float = "1.976" /\
  Py.format_3f 1.093451%float = "1.093" /\
  Py.format_3f 0.450168%float = "0.450".
Proof.
  repeat split; vm_compute; reflexivity.
Qed.

(* ================================================================== *)
(** ** What a completed chart looks like *)

Lemma index_of_nat {A : Type} (l : list A) (n : nat) (a : A) :
  nth_error l n = Some a -> Py.index l (Z.of_nat n) = inr a.
Proof.
  intros H. unfold Py.index.
  assert (Hn : (n < List.length l)%nat) by (apply nth_error_Some; congruence).
  replace (Z.of_nat n <? 0) with false by (symmetry; apply Z.ltb_ge; lia).
  replace (0 <=? Z.of_nat n) with true by (symmetry; apply Z.leb_le; lia).
  replace (Z.of_nat n <? Z.of_nat (List.length l)) with true
    by (symmetry; apply Z.ltb_lt; lia).
  cbn [andb]. rewrite Nat2Z.id, H. reflexivity.
Qed.

Lemma index_inr_nth {A : Type} (l : list A) (k : nat) (a : A) :
  Py.index l (Z.of_nat k) = inr a -> nth_error l k = Some a.
Proof.
  unfold Py.index.
  replace (Z.of_nat k <? 0) with false by (symmetry; apply Z.ltb_ge; lia).
  destruct (_ && _); [| discriminate].
  rewrite Nat2Z.id. destruct (nth_error l k); [| discriminate].
  intros [= ->]. reflexivity.
Qed.

Lemma index_last {A : Type} (l : list A) (a dflt : A) :
  Py.index l (-1) = inr a -> List.last l dflt = a.
Proof.
  unfold Py.index. cbn [Z.ltb Z.compare].
  destruct (_ && _) eqn:E; [| discriminate].
  apply andb_true_iff in E as [E1 E2].
  apply Z.leb_le in E1.
  destruct (nth_error l _) eqn:Hn; [| discriminate]. intros [= ->].
  destruct (exists_last (l := l)) as (l' & x & ->).
  { intros ->. cbn in E1. lia. }
  rewrite last_last. rewrite length_app in Hn. cbn [List.length] in Hn.
  replace (Z.to_nat (-1 + Z.of_nat (List.length l' + 1))) with (List.length l') in Hn by lia.
  rewrite nth_error_app2 in Hn by lia. rewrite Nat.sub_diag in Hn.
  cbn in Hn. congruence.
Qed.

Lemma length_list_set {A : Type} (l : list A) n a :
  List.length (plt.list_set l n a) = List.length l.
Proof.
  revert n. induction l as [| x l IH]; intros [| n]; cbn; auto.
Qed.

Lemma nth_error_list_set_eq {A : Type} (l : list A) n a :
  (n < List.length l)%nat -> nth_error (plt.list_set l n a) n = Some a.
Proof.
  revert n. induction l as [| x l IH]; intros [| n] H; cbn in *; try lia; auto.
  apply IH. lia.
Qed.

Lemma nth_error_list_set_neq {A : Type} (l : list A) n n' a :
  n <> n' -> nth_error (plt.list_set l n a) n' = nth_error l n'.
Proof.
  revert n n'. induction l as [| x l IH]; intros [| n] [| n'] H; cbn; auto.
  congruence.
Qed.

Lemma list_set_twice {A : Type} (l : list A) n a b :
  plt.list_set (plt.list_set l n a) n b = plt.list_set l n b.
Proof.
  revert n. induction l as [| x l IH]; intros [| n]; cbn; auto.
  now rewrite IH.
Qed.

Lemma with_axes_twice a b w : with_axes b (with_axes a w) = with_axes b w.
Proof. reflexivity. Qed.

Lemma axes_with_axes a w : axes (fig (with_axes a w)) = a.
Proof. reflexivity. Qed.

Lemma globals_with_axes a w : globals (with_axes a w) = globals w.
Proof. reflexivity. Qed.

Lemma position_of_nat len n : plt.position len (Z.of_nat n) = n.
Proof.
  unfold plt.position.
  replace (Z.of_nat n <? 0) with false by (symmetry; apply Z.ltb_ge; lia).
  apply Nat2Z.id.
Qed.

Lemma axes_at_ok n ax w :
  nth_error (axes (fig w)) n = Some ax ->
  plt.axes_at (Z.of_nat n) w = (inr ax, w).
Proof.
  intros H. unfold plt.axes_at. rewrite bind_gets.
  unfold lift. now rewrite (index_of_nat _ _ _ H).
Qed.

Lemma axes_at_inv n ax w w' :
  plt.axes_at (Z.of_nat n) w = (inr ax, w') ->
  nth_error (axes (fig w)) n = Some ax /\ w' = w.
Proof.
  unfold plt.axes_at. rewrite bind_gets. unfold lift.
  intros [= H <-]. split; [| reflexivity]. now apply index_inr_nth.
Qed.

Lemma call_ok n m ax ax' w :
  nth_error (axes (fig w)) n = Some ax -> m ax = inr ax' ->
  plt.call (Z.of_nat n) m w =
  (inr tt, with_axes (plt.list_set (axes (fig w)) n ax') w).
Proof.
  intros H Hm. unfold plt.call.
  rewrite (bind_inr _ _ _ _ _ (axes_at_ok _ _ _ H)).
  rewrite bind_lift, Hm. unfold modify. cbn zeta.
  rewrite position_of_nat. reflexivity.
Qed.

Lemma call_raises n m ax e w :
  nth_error (axes (fig w)) n = Some ax -> m ax = inl e ->
  plt.call (Z.of_nat n) m w = (inl e, w).
Proof.
  intros H Hm. unfold plt.call.
  rewrite (bind_inr _ _ _ _ _ (axes_at_ok _ _ _ H)).
  rewrite bind_lift, Hm. reflexivity.
Qed.

Section Chart.
Variables (d : Data) (cs ls : list string).

Lemma plot_model_skip idx metric i model values w :
  String.eqb model "epoch" = true ->
  plot_model idx metric (i, (model, values)) w = (inr tt, w).
Proof. intros E. unfold plot_model. rewrite E. reflexivity. Qed.

Lemma plot_model_ok n metric i model values w w' :
  globals w = mkGlobals d cs ls ->
  String.eqb model "epoch" = false ->
  plot_model (Z.of_nat n) metric (i, (model, values)) w = (inr tt, w') ->
  exists ax ln,
    nth_error (axes (fig w)) n = Some ax /\
    drawn_for d cs ls metric ln (i, (model, values)) /\
    w' = with_axes (plt.list_set (axes (fig w)) n (add_lines [ln] ax)) w.
Proof.
  intros HG E. unfold plot_model. rewrite E. cbn [negb].
  destruct (plt.axes_at (Z.of_nat n) w) as [[e | ax] w1] eqn:Hax.
  { rewrite (bind_inl _ _ _ _ _ Hax). discriminate. }
  rewrite (bind_inr _ _ _ _ _ Hax).
  apply axes_at_inv in Hax as [Hax ->].
  unfold read_data, read_colors, read_line_styles.
  rewrite bind_gets, HG. cbn [g_data g_colors g_line_styles].
  rewrite bind_lift. destruct (Py.getitem d "epoch") as [e | x] eqn:Hx; [discriminate |].
  rewrite bind_lift. destruct (subscript values metric) as [e | y] eqn:Hy; [discriminate |].
  rewrite bind_gets, HG. cbn [g_data g_colors g_line_styles].
  rewrite bind_lift. destruct (Py.index cs (i - 1)) as [e | c] eqn:Hc; [discriminate |].
  rewrite bind_gets, HG. cbn [g_data g_colors g_line_styles].
  rewrite bind_lift. destruct (Py.index ls (i - 1)) as [e | s] eqn:Hs; [discriminate |].
  destruct (plt.plot x y model 2 c s ax) as [e | ax'] eqn:Hp.
  { rewrite (call_raises _ _ _ _ _ Hax Hp). discriminate. }
  rewrite (call_ok _ _ _ _ _ Hax Hp). intros [= <-].
  unfold plt.plot in Hp. destruct x as [xs | dd]; [| discriminate].
  destruct (Nat.eqb _ _) eqn:Hlen; [| discriminate].
  apply Nat.eqb_eq in Hlen. injection Hp as <-.
  exists ax, (mkLine xs y model 2 c s). repeat split; auto.
Qed.

Lemma add_lines_app a b ax : add_lines b (add_lines a ax) = add_lines (a ++ b) ax.
Proof. unfold add_lines. cbn. now rewrite app_assoc. Qed.

Lemma add_lines_nil ax : add_lines [] ax = ax.
Proof. destruct ax. unfold add_lines. cbn. now rewrite app_nil_r. Qed.

Lemma with_axes_same w : with_axes (axes (fig w)) w = w.
Proof. destruct w as [g rc [sz st a t ad] fs sh out]. reflexivity. Qed.

Lemma list_set_same {A : Type} (l : list A) n a :
  nth_error l n = Some a -> plt.list_set l n a = l.
Proof.
  revert n. induction l as [| x l IH]; intros [| n]; cbn; try discriminate.
  - now intros [= ->].
  - intros H. now rewrite IH.
Qed.

(** The inner loop, when it completes, has added one line per model item
    to panel [n] and changed nothing else. *)
Lemma inner_loop_ok n metric :
  forall items w w' ax,
    globals w = mkGlobals d cs ls ->
    nth_error (axes (fig w)) n = Some ax ->
    for_each items (plot_model (Z.of_nat n) metric) w = (inr tt, w') ->
    exists new,
      Forall2 (drawn_for d cs ls metric) new (filter is_model items) /\
      w' = with_axes (plt.list_set (axes (fig w)) n (add_lines new ax)) w.
Proof.
  induction items as [| [i [model values]] rest IH]; intros w w' ax HG Hax.
  - cbn. intros [= <-]. exists []. split; [constructor |].
    rewrite add_lines_nil, (list_set_same _ _ _ Hax). symmetry. apply with_axes_same.
  - cbn [for_each filter]. unfold is_model at 1. cbn [fst snd].
    destruct (String.eqb model "epoch") eqn:E; cbn [negb].
    + rewrite (bind_inr _ _ _ _ _ (plot_model_skip _ _ _ _ _ _ E)).
      apply IH; assumption.
    + destruct (plot_model (Z.of_nat n) metric (i, (model, values)) w)
        as [[e | []] w1] eqn:H1.
      { rewrite (bind_inl _ _ _ _ _ H1). discriminate. }
      rewrite (bind_inr _ _ _ _ _ H1).
      destruct (plot_model_ok _ _ _ _ _ _ _ HG E H1) as (ax0 & ln & Hax0 & Hln & ->).
      assert (ax0 = ax) by congruence. subst ax0.
      assert (Hn : (n < List.length (axes (fig w)))%nat)
        by (apply nth_error_Some; congruence).
      intros Hrest.
      apply IH with (ax := add_lines [ln] ax) in Hrest;
        [| rewrite globals_with_axes; exact HG
         | rewrite axes_with_axes; now apply nth_error_list_set_eq].
      destruct Hrest as (new & Hnew & ->).
      exists (ln :: new). split; [constructor; assumption |].
      rewrite axes_with_axes, with_axes_twice, list_set_twice, add_lines_app.
      reflexivity.
Qed.

Lemma call_on_set n m l a a' w :
  (n < List.length l)%nat -> m a = inr a' ->
  plt.call (Z.of_nat n) m (with_axes (plt.list_set l n a) w) =
  (inr tt, with_axes (plt.list_set l n a') w).
Proof.
  intros Hn Hm.
  rewrite (call_ok n m a a'); [| rewrite axes_with_axes; now apply nth_error_list_set_eq | exact Hm].
  now rewrite axes_with_axes, with_axes_twice, list_set_twice.
Qed.

(** One round of the outer loop, when it completes. *)
Lemma panel_ok n metric t yl w w' ax :
  globals w = mkGlobals d cs ls ->
  nth_error (axes (fig w)) n = Some ax ->
  panel (Z.of_nat n, (metric, t, yl)) w = (inr tt, w') ->
  exists new,
    Forall2 (drawn_for d cs ls metric) new (filter is_model (Py.enumerate (Py.items d))) /\
    w' = with_axes (plt.list_set (axes (fig w)) n (decorate t yl (add_lines new ax))) w.
Proof.
  intros HG Hax. unfold panel, read_data. rewrite bind_gets, HG. cbn [g_data].
  destruct (for_each (Py.enumerate (Py.items d)) (plot_model (Z.of_nat n) metric) w)
    as [[e | []] w1] eqn:H1.
  { rewrite (bind_inl _ _ _ _ _ H1). discriminate. }
  rewrite (bind_inr _ _ _ _ _ H1).
  destruct (inner_loop_ok _ _ _ _ _ _ HG Hax H1) as (new & Hnew & ->).
  assert (Hn : (n < List.length (axes (fig w)))%nat)
    by (apply nth_error_Some; congruence).
  do 5 (erewrite bind_inr; [| apply call_on_set; [exact Hn | reflexivity]]).
  erewrite call_on_set; [| exact Hn | reflexivity].
  intros [= <-]. exists new. split; [exact Hnew | reflexivity].
Qed.

(** The plot loop, when it completes on a figure of three panels. *)
Lemma plot_loop_ok w w' a0 a1 a2 :
  globals w = mkGlobals d cs ls ->
  axes (fig w) = [a0; a1; a2] ->
  plot_loop w = (inr tt, w') ->
  exists n0 n1 n2,
    Forall2 (drawn_for d cs ls "loss") n0 (filter is_model (Py.enumerate (Py.items d))) /\
    Forall2 (drawn_for d cs ls "pesq") n1 (filter is_model (Py.enumerate (Py.items d))) /\
    Forall2 (drawn_for d cs ls "stoi") n2 (filter is_model (Py.enumerate (Py.items d))) /\
    w' = with_axes [decorate "Training Loss" "Loss" (add_lines n0 a0);
                    decorate "PESQ Score" "PESQ" (add_lines n1 a1);
                    decorate "STOI Score" "STOI" (add_lines n2 a2)] w.
Proof.
  intros HG Ha. unfold plot_loop.
  change (Py.enumerate (Py.zip3 metrics titles ylabels))
    with [(Z.of_nat 0, ("loss", "Training Loss", "Loss"));
          (Z.of_nat 1, ("pesq", "PESQ Score", "PESQ"));
          (Z.of_nat 2, ("stoi", "STOI Score", "STOI"))].
  cbn [for_each].
  run_head H0; [discriminate |].
  destruct (panel_ok 0 _ _ _ _ _ a0 HG ltac:(now rewrite Ha) H0) as (n0 & F0 & ->).
  rewrite Ha. cbn [plt.list_set].
  run_head H1; [discriminate |].
  apply panel_ok with (ax := a1) in H1; [| exact HG | reflexivity].
  destruct H1 as (n1 & F1 & ->).
  rewrite axes_with_axes, with_axes_twice. cbn [plt.list_set].
  run_head H2; [discriminate |].
  apply panel_ok with (ax := a2) in H2; [| exact HG | reflexivity].
  destruct H2 as (n2 & F2 & ->).
  rewrite axes_with_axes, with_axes_twice. cbn [plt.list_set].
  unfold ret.
  intros [= <-]. exists n0, n1, n2. auto.
Qed.
End Chart.

(* ================================================================== *)
(** ** The script as three phases *)

Lemma script_phases d cs ls w :
  script d cs ls w =
  match plot_loop (before_plot d cs ls w) with
  | (inr _, w1) => report (after_plot w1)
  | (inl e, w1) => (inl e, w1)
  end.
Proof.
  rewrite script_unfold.
  cbv [configure render bind modify plt.style_use_default plt.rc_set
       plt.subplots plt.fig_suptitle].
  cbn [globals rcParams fig files shown stdout set_globals set_rcParams set_fig
       g_data g_colors g_line_styles figsize suptitle axes tight adjusted].
  rewrite rc_grid_configured.
  match goal with
  | |- context [plot_loop ?X] => change X with (before_plot d cs ls w)
  end.
  destruct (plot_loop (before_plot d cs ls w)) as [[e | []] w1]; reflexivity.
Qed.

Lemma axes_are_stable a : stable_print (axes_are a).
Proof. intros w s H. exact H. Qed.

(** A completed run leaves three decorated panels, each holding exactly the
    lines the inner loop drew for the models. *)
Lemma script_ok d cs ls w :
  result (script d cs ls w) = inr tt ->
  exists n0 n1 n2,
    Forall2 (drawn_for d cs ls "loss") n0 (filter is_model (Py.enumerate (Py.items d))) /\
    Forall2 (drawn_for d cs ls "pesq") n1 (filter is_model (Py.enumerate (Py.items d))) /\
    Forall2 (drawn_for d cs ls "stoi") n2 (filter is_model (Py.enumerate (Py.items d))) /\
    axes (fig (final (script d cs ls w))) =
      [decorate "Training Loss" "Loss" (add_lines n0 plt.empty_axes);
       decorate "PESQ Score" "PESQ" (add_lines n1 plt.empty_axes);
       decorate "STOI Score" "STOI" (add_lines n2 plt.empty_axes)].
Proof.
  rewrite script_phases.
  destruct (plot_loop (before_plot d cs ls w)) as [[e | []] w1] eqn:H;
    [discriminate |].
  intros _.
  apply plot_loop_ok with (d := d) (cs := cs) (ls := ls)
      (a0 := plt.new_axes true) (a1 := plt.new_axes true)
      (a2 := plt.new_axes true) in H;
    [| reflexivity | reflexivity].
  destruct H as (n0 & n1 & n2 & F0 & F1 & F2 & ->).
  exists n0, n1, n2. repeat (split; [assumption |]).
  apply (keeps_report (axes_are _) (axes_are_stable _)). reflexivity.
Qed.

(* ================================================================== *)
(** ** Colours and line styles *)

Lemma filter_models_from start series :
  no_epoch_key series = true ->
  filter is_model (Py.enumerate_from start series) = Py.enumerate_from start series.
Proof.
  revert start. induction series as [| [name v] rest IH]; intros start H; cbn in *.
  - reflexivity.
  - apply andb_true_iff in H as [H1 H2]. unfold is_model at 1. cbn [fst snd].
    rewrite H1. now rewrite IH.
Qed.

Lemma styles_of_drawn d cs ls metric :
  forall series k new,
    Forall2 (drawn_for d cs ls metric) new
      (Py.enumerate_from (Z.of_nat k + 1) series) ->
    map style_of new = assigned_from cs ls k (map fst series).
Proof.
  induction series as [| [name v] rest IH]; intros k new H; cbn in H.
  - inversion H. reflexivity.
  - inversion H as [| ln it new' its Hln Hrest]; subst.
    unfold assigned_from. cbn [map List.length seq combine fst snd].
    destruct Hln as (_ & _ & Hl & _ & Hc & Hs & _). cbn [fst snd] in *.
    replace (Z.of_nat k + 1 - 1) with (Z.of_nat k) in * by lia.
    apply index_inr_nth in Hc, Hs.
    assert (Hkc : (k < List.length cs)%nat) by (apply nth_error_Some; congruence).
    assert (Hks : (k < List.length ls)%nat) by (apply nth_error_Some; congruence).
    rewrite !Nat.mod_small by assumption.
    rewrite (nth_error_nth _ _ _ Hc), (nth_error_nth _ _ _ Hs).
    unfold style_of at 1. rewrite Hl. f_equal.
    replace (Z.of_nat k + 1 + 1) with (Z.of_nat (S k) + 1) in Hrest by lia.
    apply IH in Hrest. exact Hrest.
Qed.






(* ------------------------------------------------------------------ *)
(** *** The index [i - 1] *)

(** C4, refuted: the first series, "No Preprocessing", is drawn in blue
    [#1f77b4], the first palette entry, not in the last one [#e377c2]. *)
Lemma first_series_does_not_wrap : ~ first_series_wraps.
Proof.
  unfold first_series_wraps. intros H.
  destruct (axes (fig (final (main fresh)))) as [| ax rest] eqn:E;
    [vm_compute in E; discriminate |].
  destruct (hd_error (lines ax)) as [ln |] eqn:El.
  - destruct (H ax ln) as [Hc _]; [left; reflexivity | exact El |].
    vm_compute in E. injection E as <- _. vm_compute in El.
    injection El as <-. vm_compute in Hc. discriminate.
  - vm_compute in E. injection E as <- _. vm_compute in El. discriminate.
Qed.

(** C4, amended.  [i] counts the items of [data], the [epoch] key included:
    [epoch] is item 0 and is skipped, so the first series is item 1 and is
    drawn with [colors[0]] and [line_styles[0]], the first entries.  Index
    [-1], the last entry, belongs to item 0 alone. *)
Theorem first_series_gets_first_entry :
  map (fun it => (fst it, fst (snd it))) (Py.enumerate (Py.items data)) =
    [(0, "epoch"); (1, "No Preprocessing"); (2, "MelSEGAN + VMD + VAD");
     (3, "MelSEGAN + VMD + DTW"); (4, "MelSEGAN + VMD + DTW + MAML");
     (5, "MelSEGAN + VAD + VMD + MAML"); (6, "UNet + HiFigan + VMD + VAD");
     (7, "UNet + HiFigan + VMD + DTW")] /\
  Forall (fun ax => option_map style_of (hd_error (lines ax)) =
                      Some ("No Preprocessing", "#1f77b4", "-"))
    (axes (fig (final (main fresh)))) /\
  Py.index colors (1 - 1) = inr "#1f77b4" /\
  hd_error colors = Some "#1f77b4" /\
  Py.index line_styles (1 - 1) = inr "-" /\
  hd_error line_styles = Some "-" /\
  Py.index colors (0 - 1) = inr "#e377c2" /\
  Py.index line_styles (0 - 1) = inr "--".
Proof.
  repeat split; try reflexivity.
  vm_compute. repeat constructor.
Qed.

(* ------------------------------------------------------------------ *)
(** *** The range of the x axis *)

(** C5, refuted: the smallest epoch is 1, the range of each panel starts
    at 0. *)
Lemma xlim_does_not_span_epochs : ~ xlim_spans_epochs.
Proof.
  unfold xlim_spans_epochs. intros H.
  destruct (axes (fig (final (main fresh)))) as [| ax rest] eqn:E;
    [vm_compute in E; discriminate |].
  specialize (H ax (or_introl eq_refl)).
  vm_compute in E. injection E as <- _. vm_compute in H. discriminate.
Qed.

(** C5, amended.  Whatever the dataset, a completed run leaves three panels
    and each has the x range [(0, 30)], the two literals of [set_xlim]: the
    range is not computed from the epochs. *)
Theorem xlim_is_literal (d : Data) (cs ls : list string) (w : World) :
  result (script d cs ls w) = inr tt ->
  List.length (axes (fig (final (script d cs ls w)))) = 3%nat /\
  Forall (fun ax => xlim ax = Some (0, 30))
    (axes (fig (final (script d cs ls w)))).
Proof.
  intros Hr.
  destruct (script_ok _ _ _ _ Hr) as (n0 & n1 & n2 & _ & _ & _ & ->).
  split; [reflexivity | repeat constructor].
Qed.

(** The literal dataset: epochs from 1 to 30, x range from 0 to 30. *)
Lemma xlim_is_literal_witness :
  result (main fresh) = inr tt /\
  minimum (epochs_of data) = 1 /\ maximum (epochs_of data) = 30 /\
  List.length (axes (fig (final (main fresh)))) = 3%nat /\
  Forall (fun ax => xlim ax = Some (0, 30)) (axes (fig (final (main fresh)))).
Proof.
  split; [vm_compute; reflexivity |].
  split; [reflexivity |]. split; [reflexivity |].
  apply (xlim_is_literal data colors line_styles fresh).
  vm_compute; reflexivity.
Defined.

(* ================================================================== *)
(** ** Sequences of the wrong length *)

Lemma bind_raises {A B : Type} (c : M A) (k : A -> M B) w e :
  result (c w) = inl e -> bind c k w = (inl e, final (c w)).
Proof.
  unfold bind, result, final. destruct (c w) as [[e' | a] w']; cbn.
  - now intros [= ->].
  - discriminate.
Qed.

(** A loop raises as soon as one of its rounds is bound to raise. *)
Lemma for_each_raises {A : Type} (I : World -> Prop) (body : A -> M unit)
    (xs : list A) (x : A) :
  (forall y, keeps I (body y)) ->
  In x xs ->
  (forall w, I w -> exists e, result (body x w) = inl e) ->
  forall w, I w -> exists e, result (for_each xs body w) = inl e.
Proof.
  intros Hk Hin Hx. induction xs as [| y rest IH]; intros w HI; [contradiction |].
  cbn [for_each]. unfold bind.
  pose proof (Hk y w HI) as HI'. unfold final in HI'.
  destruct (body y w) as [[e | []] w1] eqn:Hy; cbn [snd] in HI'.
  - exists e. reflexivity.
  - destruct Hin as [-> | Hin].
    + destruct (Hx w HI) as [e He]. rewrite Hy in He. discriminate.
    + apply IH; assumption.
Qed.

Lemma In_enumerate_from {A : Type} (l : list A) (x : A) :
  In x l -> forall start, exists i, In (i, x) (Py.enumerate_from start l).
Proof.
  induction l as [| y rest IH]; intros Hin start; [contradiction |].
  destruct Hin as [-> | Hin].
  - exists start. left. reflexivity.
  - destruct (IH Hin (start + 1)) as [i Hi]. exists i. right. exact Hi.
Qed.

(** The call of [plot] for a model whose sequence does not have the length
    of the epoch list never returns. *)
Lemma plot_model_mismatch d idx metric i name values xs ys w :
  data_is d w ->
  String.eqb name "epoch" = false ->
  Py.getitem d "epoch" = inr (VList xs) ->
  subscript values metric = inr ys ->
  List.length ys <> List.length xs ->
  exists e, result (plot_model idx metric (i, (name, values)) w) = inl e.
Proof.
  unfold data_is. intros Hd E Hx Hy Hlen.
  unfold plot_model. rewrite E. cbn [negb].
  unfold plt.call, plt.axes_at, read_data, read_colors, read_line_styles.
  cbv [bind gets lift]. rewrite Hd, Hx, Hy.
  destruct (Py.index (axes (fig w)) idx) as [e | ax]; [eexists; reflexivity |].
  destruct (Py.index (g_colors (globals w)) (i - 1)) as [e | c]; [eexists; reflexivity |].
  destruct (Py.index (g_line_styles (globals w)) (i - 1)) as [e | s]; [eexists; reflexivity |].
  unfold plt.plot.
  replace (Nat.eqb (List.length xs) (List.length ys)) with false
    by (symmetry; apply Nat.eqb_neq; congruence).
  eexists; reflexivity.
Qed.

Lemma panel_mismatch d idx metric t yl name values xs ys w :
  data_is d w ->
  In (name, values) d ->
  String.eqb name "epoch" = false ->
  Py.getitem d "epoch" = inr (VList xs) ->
  subscript values metric = inr ys ->
  List.length ys <> List.length xs ->
  exists e, result (panel (idx, (metric, t, yl)) w) = inl e.
Proof.
  intros Hd Hin E Hx Hy Hlen.
  unfold panel, read_data. rewrite bind_gets. rewrite Hd.
  destruct (In_enumerate_from _ _ Hin 0) as [i Hi].
  destruct (for_each_raises (data_is d) (plot_model idx metric)
              (Py.enumerate (Py.items d)) (i, (name, values))) with (w := w)
    as [e He]; auto.
  - intros y. apply keeps_plot_model. apply data_is_ignores.
  - intros w0 H0. eapply plot_model_mismatch; eauto.
  - exists e. rewrite (bind_raises _ _ _ _ He). reflexivity.
Qed.

Lemma untouched_ignores_fig out fs : ignores_fig (untouched out fs).
Proof. intros w f H. exact H. Qed.

(** C2, amended.  The script validates nothing and has no exception of its
    own; but when some model has a metric sequence whose length is not the
    length of the epoch list, the run ends with an exception raised inside
    the plot loop: nothing has been printed and no file written. *)
Theorem mismatch_raises_before_output (d : Data) (cs ls : list string)
    (w : World) (name metric : string) (values : value) (xs : list Z)
    (ys : list float) :
  In (name, values) d ->
  String.eqb name "epoch" = false ->
  In metric metrics ->
  Py.getitem d "epoch" = inr (VList xs) ->
  subscript values metric = inr ys ->
  List.length ys <> List.length xs ->
  exists e,
    result (script d cs ls w) = inl e /\
    stdout (final (script d cs ls w)) = stdout w /\
    files (final (script d cs ls w)) = files w.
Proof.
  intros Hin E Hm Hx Hy Hlen.
  assert (Hround : exists idx t yl,
             In (idx, (metric, t, yl)) (Py.enumerate (Py.zip3 metrics titles ylabels))).
  { destruct Hm as [<- | [<- | [<- | []]]].
    - exists 0, "Training Loss", "Loss". left. reflexivity.
    - exists 1, "PESQ Score", "PESQ". right. left. reflexivity.
    - exists 2, "STOI Score", "STOI". right. right. left. reflexivity. }
  destruct Hround as (idx & t & yl & Hround).
  destruct (for_each_raises (data_is d) panel _ _
              (fun y => keeps_panel _ y (proj1 (data_is_ignores d))) Hround)
    with (w := before_plot d cs ls w) as [e He].
  - intros w0 H0. eapply panel_mismatch; eauto.
  - reflexivity.
  - fold plot_loop in He.
    pose proof (keeps_plot_loop (untouched (stdout w) (files w))
                  (untouched_ignores_fig _ _) (before_plot d cs ls w)
                  (conj eq_refl eq_refl)) as [Ho Hf].
    rewrite script_phases. unfold result, final in *.
    destruct (plot_loop (before_plot d cs ls w)) as [[e' | []] w1];
      cbn [fst snd] in *; [| discriminate].
    exists e'. auto.
Qed.

Lemma mismatch_raises_before_output_witness :
  exists e,
    result (script short_loss colors line_styles fresh) = inl e /\
    stdout (final (script short_loss colors line_styles fresh)) = stdout fresh /\
    files (final (script short_loss colors line_styles fresh)) = files fresh.
Proof.
  apply (mismatch_raises_before_output short_loss colors line_styles fresh
           "A" "loss"
           (VDict [ ("loss", [0.5]%float); ("pesq", [1.0; 1.1]%float);
                    ("stoi", [0.5; 0.6]%float) ])
           [1; 5] [0.5]%float).
  - right. left. reflexivity.
  - reflexivity.
  - left. reflexivity.
  - reflexivity.
  - reflexivity.
  - cbn. lia.
Defined.

(** C2, refuted.  On a dataset whose only series has empty metric sequences
    the chart is drawn and saved and the summary prints its title, rule and
    header before the first row raises [IndexError]: the failure comes after
    output was produced, from the subscript [[-1]]. *)
Lemma empty_series_fails_after_output :
  subscript (VDict [ ("loss", []); ("pesq", []); ("stoi", []) ]) "loss" = inr [] /\
  result (script no_samples colors line_styles fresh) = inl Py.IndexError /\
  stdout (final (script no_samples colors line_styles fresh)) =
    title_line ++ rule ++ Py.nl ++ header ++ Py.nl ++ rule ++ Py.nl /\
  map fst (files (final (script no_samples colors line_styles fresh))) =
    [output_path] /\
  ~ (stdout (final (script no_samples colors line_styles fresh)) = stdout fresh /\
     files (final (script no_samples colors line_styles fresh)) = files fresh).
Proof.
  repeat split; try (vm_compute; reflexivity).
  intros [H _]. vm_compute in H. discriminate.
Qed.

(* ================================================================== *)
(** ** The layout of the summary *)

Lemma digit_char_is_digit z : 0 <= z < 10 -> is_digit (Py.digit_char z) = true.
Proof.
  intros H. unfold is_digit, Py.digit_char.
  rewrite nat_ascii_embedding by lia.
  apply andb_true_iff. split; apply Nat.leb_le; lia.
Qed.

Lemma all_digits_uint u : all_digits (NilEmpty.string_of_uint u) = true.
Proof. induction u; cbn; auto. Qed.

Lemma decimal_digits n : all_digits (Py.decimal n) = true /\ Py.decimal n <> "".
Proof.
  unfold Py.decimal, NilZero.string_of_uint.
  destruct (N.to_uint (Z.to_N n)) eqn:E; split;
    try exact (all_digits_uint _); try reflexivity; cbn; discriminate.
Qed.

Lemma fixed3_three_decimals sgn t :
  sgn = "" \/ sgn = "-" -> three_decimals (sgn ++ Py.fixed3 t).
Proof.
  intros Hs. unfold Py.fixed3.
  exists sgn, (Py.decimal (t / 1000)), (Py.digit_char (t / 100 mod 10)),
    (Py.digit_char (t / 10 mod 10)), (Py.digit_char (t mod 10)).
  destruct (decimal_digits (t / 1000)) as [Hd Hne].
  repeat split; auto; apply digit_char_is_digit; apply Z.mod_pos_bound; lia.
Qed.

Lemma sign_str_cases s : Py.sign_str s = "" \/ Py.sign_str s = "-".
Proof. destruct s; auto. Qed.

Lemma format_3f_three_decimals x :
  isfinite x = true -> three_decimals (Py.format_3f x).
Proof.
  unfold isfinite, Py.format_3f.
  destruct (Prim2SF x) as [s | s | | s m e]; try discriminate; intros _.
  - exists (Py.sign_str s), "0", "0"%char, "0"%char, "0"%char.
    repeat split; auto using sign_str_cases. discriminate.
  - apply fixed3_three_decimals, sign_str_cases.
Qed.

Lemma string_length_app (a b : string) :
  String.length (a ++ b) = (String.length a + String.length b)%nat.
Proof. induction a as [| c a IH]; cbn; [reflexivity | now rewrite IH]. Qed.

Lemma length_spaces n : String.length (Py.spaces n) = n.
Proof.
  unfold Py.spaces. induction n as [| n IH]; cbn; [reflexivity | now rewrite IH].
Qed.

Lemma field_is_ok x : field_ok x.
Proof.
  split; [split |].
  - reflexivity.
  - intros H. unfold Py.format_r10_3f, Py.rjust.
    rewrite string_length_app, length_spaces. lia.
  - apply format_3f_three_decimals.
Qed.

(** Bring nested appends to right-nested form. *)
Ltac normalize_app :=
  repeat first [rewrite string_app_assoc | progress cbn [append]].

Lemma concat_cons_empty (s : string) (l : list string) :
  String.concat "" (s :: l) = s ++ String.concat "" l.
Proof.
  destruct l as [| t l]; cbn.
  - symmetry. apply string_app_nil_r.
  - reflexivity.
Qed.

Lemma set_stdout_same w : set_stdout (stdout w) w = w.
Proof. destruct w. reflexivity. Qed.

Lemma print_row_ok name values w w' :
  String.eqb name "epoch" = false ->
  print_row (name, values) w = (inr tt, w') ->
  w' = set_stdout (stdout w ++ table_row (name, values)) w.
Proof.
  intros E. unfold print_row. rewrite E. cbn [negb].
  unfold table_row, last_of. cbn [fst snd].
  rewrite bind_lift. destruct (subscript values "loss") as [e | l]; [discriminate |].
  rewrite bind_lift. destruct (Py.index l (-1)) as [e | a] eqn:Ha; [discriminate |].
  rewrite bind_lift. destruct (subscript values "pesq") as [e | p]; [discriminate |].
  rewrite bind_lift. destruct (Py.index p (-1)) as [e | b] eqn:Hb; [discriminate |].
  rewrite bind_lift. destruct (subscript values "stoi") as [e | s]; [discriminate |].
  rewrite bind_lift. destruct (Py.index s (-1)) as [e | c] eqn:Hc; [discriminate |].
  rewrite (index_last _ _ 0%float Ha), (index_last _ _ 0%float Hb),
    (index_last _ _ 0%float Hc).
  unfold print, modify. intros [= <-]. f_equal. f_equal.
  normalize_app. reflexivity.
Qed.

Lemma print_rows_ok :
  forall items w w',
    for_each items print_row w = (inr tt, w') ->
    w' = set_stdout (stdout w ++ rows_text items) w.
Proof.
  induction items as [| [name values] rest IH]; intros w w'.
  - cbn. intros [= <-]. unfold rows_text. cbn.
    rewrite string_app_nil_r. symmetry. apply set_stdout_same.
  - cbn [for_each]. unfold rows_text. cbn [filter fst].
    destruct (String.eqb name "epoch") eqn:E; cbn [negb].
    + unfold print_row at 1. rewrite E. cbn [negb]. unfold bind at 1, ret.
      apply IH.
    + run_head H1; [discriminate |].
      apply print_row_ok in H1; [| exact E]. subst.
      intros H. apply IH in H. subst w'. cbn [stdout set_stdout].
      cbn [map]. rewrite concat_cons_empty. unfold rows_text.
      rewrite string_app_assoc. reflexivity.
Qed.

Lemma length_ljust w s :
  String.length (Py.ljust w s) = Nat.max w (String.length s).
Proof. unfold Py.ljust. rewrite string_length_app, length_spaces. lia. Qed.

Lemma length_rjust w s :
  String.length (Py.rjust w s) = Nat.max w (String.length s).
Proof. unfold Py.rjust. rewrite string_length_app, length_spaces. lia. Qed.

Lemma length_table_row kv :
  String.length (table_row kv) = row_length kv.
Proof.
  unfold table_row, row_length, Py.format_l30, Py.format_r10_3f.
  repeat rewrite string_length_app. rewrite length_ljust, !length_rjust.
  cbn [String.length Py.nl]. lia.
Qed.

(** C6, refuted.  A model with a name of 39 characters beside one with a
    short name: the run completes and prints both rows, the first 72
    characters wide, the second 63 (73 and 64 with the newline); the name
    field of the first is 39 wide, not 30. *)
Lemma rows_of_different_width :
  result (script uneven_rows colors line_styles fresh) = inr tt /\
  stdout (final (script uneven_rows colors line_styles fresh)) = table uneven_rows /\
  map (fun kv => String.length (table_row kv)) (models_of uneven_rows) =
    [73%nat; 64%nat] /\
  map (fun kv => String.length (Py.format_l30 (fst kv))) (models_of uneven_rows) =
    [39%nat; 30%nat] /\
  ~ rows_same_width uneven_rows.
Proof.
  repeat split; try (vm_compute; reflexivity).
  intros H.
  specialize (H ("MelSEGAN + VMD + DTW + MAML + attention",
                 VDict [ ("loss", [0.5]%float); ("pesq", [1.0]%float);
                         ("stoi", [0.5]%float) ])
                ("B",
                 VDict [ ("loss", [0.5]%float); ("pesq", [1.0]%float);
                         ("stoi", [0.5]%float) ])
                (or_introl eq_refl) (or_intror (or_introl eq_refl))).
  vm_compute in H. discriminate.
Qed.

(** C6, amended.  When the summary completes, what it writes is: the title,
    a rule of 80 dashes, the header with the column titles Model, Loss, PESQ
    and STOI, a rule, one row per model in dataset order ([table_row]), and a
    closing rule.  In a row the name is left-aligned and padded to at least
    30 columns; each numeric field is the last sample with exactly three
    digits after the point (when it is finite), right-aligned and padded to
    at least 10 columns; the fields are separated by single spaces.  The
    widths are minimum widths: a row is 63 characters wide when its name has
    at most 30 characters and each number at most 10, and wider by the
    excess otherwise. *)
Theorem report_layout (w : World) :
  result (report w) = inr tt ->
  stdout (final (report w)) = stdout w ++ table (g_data (globals w)) /\
  rule = "--------------------------------------------------------------------------------" /\
  String.length rule = 80%nat /\
  header = "Model                                Loss       PESQ       STOI" /\
  Forall (fun kv =>
            Forall (fun m => field_ok (last_of (snd kv) m)) metrics /\
            left_aligned (Py.format_l30 (fst kv)) (fst kv) /\
            String.length (table_row kv) = row_length kv /\
            ((String.length (fst kv) <= 30)%nat ->
             Forall (fun m =>
                       (String.length (Py.format_3f (last_of (snd kv) m)) <= 10)%nat)
               metrics ->
             String.length (table_row kv) = 64%nat))
    (models_of (g_data (globals w))).
Proof.
  intros Hr. split; [| split; [reflexivity | split; [reflexivity | split; [reflexivity |]]]].
  - unfold report, read_data in *. unfold print in Hr |- * . unfold result, final in *.
    rewrite !bind_modify in *. rewrite bind_gets in *.
    cbn [globals set_stdout stdout] in *.
    match goal with
    | H : fst (bind (for_each ?items ?b) ?k ?w0) = _ |- _ =>
        destruct (for_each items b w0) as [[e | []] w1] eqn:Hl;
        [ rewrite (bind_inl _ _ _ _ _ Hl) in H; discriminate
        | rewrite (bind_inr _ _ _ _ _ Hl) ]
    end.
    apply print_rows_ok in Hl. subst w1. cbn [snd modify stdout set_stdout].
    unfold table, title_line, rows_text, models_of, Py.items.
    normalize_app. reflexivity.
  - apply Forall_forall. intros kv _.
    split; [apply Forall_forall; intros m _; apply field_is_ok |].
    split.
    { split; [reflexivity |]. intros H. unfold Py.format_l30.
      rewrite length_ljust. lia. }
    split; [apply length_table_row |].
    intros Hn Hf. rewrite length_table_row. unfold row_length.
    inversion Hf as [| m1 l1 H1 Hf1]; subst.
    inversion Hf1 as [| m2 l2 H2 Hf2]; subst.
    inversion Hf2 as [| m3 l3 H3 Hf3]; subst.
    lia.
Qed.

(** The literal dataset: seven rows of 63 characters and a newline. *)
Lemma report_layout_witness :
  result (report at_summary) = inr tt /\
  stdout (final (report at_summary)) = stdout at_summary ++ table data /\
  map (fun kv => String.length (table_row kv)) (models_of data) =
    repeat 64%nat 7 /\
  map row_length (models_of data) = repeat 64%nat 7.
Proof.
  split; [vm_compute; reflexivity |].
  split.
  - apply (report_layout at_summary).
    vm_compute; reflexivity.
  - split; vm_compute; reflexivity.
Defined.

(* ================================================================== *)
(** ** Two runs *)

Section Respects.
Variables i1 i2 : World.

Lemma respects_ret {A : Type} (a : A) : respects i1 i2 (ret a).
Proof. intros w1 w2 H. split; [reflexivity | exact H]. Qed.

Lemma respects_lift {A : Type} (r : Py.exn + A) : respects i1 i2 (lift r).
Proof. intros w1 w2 H. split; [reflexivity | exact H]. Qed.

Lemma respects_gets {A : Type} (f : World -> A) :
  (forall w1 w2, globals w1 = globals w2 -> fig w1 = fig w2 -> f w1 = f w2) ->
  respects i1 i2 (gets f).
Proof.
  intros Hf w1 w2 H. split; [| exact H].
  cbn. f_equal. apply Hf; apply H.
Qed.

Lemma respects_modify (f : World -> World) :
  (forall w1 w2, sim i1 i2 w1 w2 -> sim i1 i2 (f w1) (f w2)) ->
  respects i1 i2 (modify f).
Proof. intros Hf w1 w2 H. split; [reflexivity | apply Hf, H]. Qed.

Lemma respects_bind {A B : Type} (c : M A) (k : A -> M B) :
  respects i1 i2 c -> (forall a, respects i1 i2 (k a)) -> respects i1 i2 (bind c k).
Proof.
  intros Hc Hk w1 w2 H. destruct (Hc w1 w2 H) as [Hr Hs].
  unfold bind, result, final in *.
  destruct (c w1) as [[e1 | a1] w1'], (c w2) as [[e2 | a2] w2'];
    cbn [fst snd] in *; try discriminate.
  - injection Hr as ->. split; [reflexivity | exact Hs].
  - injection Hr as <-. apply Hk, Hs.
Qed.

Lemma respects_for_each {A : Type} (xs : list A) (body : A -> M unit) :
  (forall x, respects i1 i2 (body x)) -> respects i1 i2 (for_each xs body).
Proof.
  intros Hb. induction xs as [| x rest IH]; cbn [for_each].
  - apply respects_ret.
  - apply respects_bind; [apply Hb | intros _; exact IH].
Qed.

Lemma respects_if {A : Type} (b : bool) (c1 c2 : M A) :
  respects i1 i2 c1 -> respects i1 i2 c2 -> respects i1 i2 (if b then c1 else c2).
Proof. destruct b; auto. Qed.

Lemma sim_set_fig w1 w2 f1 f2 :
  sim i1 i2 w1 w2 -> f1 = f2 -> sim i1 i2 (set_fig f1 w1) (set_fig f2 w2).
Proof. intros (Hg & Hf & Ho & Hs & Hfi) ->. repeat split; assumption. Qed.

Lemma respects_axes_at idx : respects i1 i2 (plt.axes_at idx).
Proof.
  unfold plt.axes_at. apply respects_bind.
  - apply respects_gets. intros w1 w2 _ Hf. now rewrite Hf.
  - intros a. apply respects_lift.
Qed.

Lemma respects_call idx m : respects i1 i2 (plt.call idx m).
Proof.
  unfold plt.call.
  apply respects_bind; [apply respects_axes_at | intros ax].
  apply respects_bind; [apply respects_lift | intros ax'].
  apply respects_modify. intros w1 w2 H. cbn zeta.
  apply sim_set_fig; [exact H |].
  destruct H as (_ & Hf & _). now rewrite Hf.
Qed.

Lemma respects_read_data : respects i1 i2 read_data.
Proof. apply respects_gets. intros w1 w2 Hg _. now rewrite Hg. Qed.

Lemma respects_read_colors : respects i1 i2 read_colors.
Proof. apply respects_gets. intros w1 w2 Hg _. now rewrite Hg. Qed.

Lemma respects_read_line_styles : respects i1 i2 read_line_styles.
Proof. apply respects_gets. intros w1 w2 Hg _. now rewrite Hg. Qed.

Lemma respects_plot_model idx metric it : respects i1 i2 (plot_model idx metric it).
Proof.
  destruct it as [i [model values]]. unfold plot_model.
  apply respects_if; [| apply respects_ret].
  apply respects_bind; [apply respects_axes_at | intros _].
  apply respects_bind; [apply respects_read_data | intros d].
  apply respects_bind; [apply respects_lift | intros x].
  apply respects_bind; [apply respects_lift | intros y].
  apply respects_bind; [apply respects_read_colors | intros cs].
  apply respects_bind; [apply respects_lift | intros c].
  apply respects_bind; [apply respects_read_line_styles | intros ls].
  apply respects_bind; [apply respects_lift | intros s].
  apply respects_call.
Qed.

Lemma respects_panel it : respects i1 i2 (panel it).
Proof.
  destruct it as [idx [[metric t] yl]]. unfold panel.
  apply respects_bind; [apply respects_read_data | intros d].
  apply respects_bind.
  { apply respects_for_each. intros x. apply respects_plot_model. }
  intros _.
  do 5 (apply respects_bind; [apply respects_call | intros _]).
  apply respects_call.
Qed.

Lemma respects_plot_loop : respects i1 i2 plot_loop.
Proof. apply respects_for_each. intros x. apply respects_panel. Qed.

Lemma respects_print s : respects i1 i2 (print s).
Proof.
  apply respects_modify.
  intros w1 w2 (Hg & Hf & (out & Ho1 & Ho2) & Hs & Hfi).
  repeat split; try assumption.
  exists (out ++ s ++ Py.nl). cbn [stdout set_stdout].
  rewrite Ho1, Ho2, !string_app_assoc. split; reflexivity.
Qed.

Lemma respects_print_row it : respects i1 i2 (print_row it).
Proof.
  destruct it as [model values]. unfold print_row.
  apply respects_if; [| apply respects_ret].
  do 6 (apply respects_bind; [apply respects_lift | intros ?]).
  apply respects_print.
Qed.

Lemma respects_report : respects i1 i2 report.
Proof.
  unfold report.
  do 4 (apply respects_bind; [apply respects_print | intros _]).
  apply respects_bind; [apply respects_read_data | intros d].
  apply respects_bind; [| intros _; apply respects_print].
  apply respects_for_each. intros x. apply respects_print_row.
Qed.

Lemma respects_render_finish : respects i1 i2 render_finish.
Proof.
  unfold render_finish, plt.tight_layout, plt.subplots_adjust, plt.savefig, plt.show.
  apply respects_bind; [| intros _].
  { apply respects_modify. intros w1 w2 H. cbn zeta.
    apply sim_set_fig; [exact H |]. destruct H as (_ & Hf & _). now rewrite Hf. }
  apply respects_bind; [| intros _].
  { apply respects_modify. intros w1 w2 H. cbn zeta.
    apply sim_set_fig; [exact H |]. destruct H as (_ & Hf & _). now rewrite Hf. }
  apply respects_bind; [| intros _].
  { apply respects_modify.
    intros w1 w2 (Hg & Hf & Ho & Hs & Hfi).
    repeat split; try assumption.
    right. exists (fig w1, 300). cbn [files set_files].
    split; [| rewrite <- Hf]; apply getitem_setitem. }
  apply respects_modify.
  intros w1 w2 (Hg & Hf & Ho & (s & Hs1 & Hs2) & Hfi).
  repeat split; try assumption.
  exists (s ++ [fig w1])%list. cbn [shown set_shown].
  rewrite Hs1, Hs2, Hf, !app_assoc. split; reflexivity.
Qed.
End Respects.

Lemma script_from_plot d cs ls w :
  script d cs ls w =
  (plot_loop ;; render_finish ;; report) (before_plot d cs ls w).
Proof.
  rewrite script_phases. unfold bind at 1.
  destruct (plot_loop (before_plot d cs ls w)) as [[e | []] w1]; reflexivity.
Qed.

Lemma sim_before_plot d cs ls w1 w2 :
  sim w1 w2 (before_plot d cs ls w1) (before_plot d cs ls w2).
Proof.
  repeat split.
  - exists "". cbn. now rewrite !string_app_nil_r.
  - exists []. cbn. now rewrite !app_nil_r.
  - left. split; reflexivity.
Qed.

(** C8. Two runs of the script on the same dataset, palette and styles, from
    any two starting worlds, end the same way (both complete, or both raise
    the same exception), leave the same figure (the same lines with their
    data, labels, colours and styles, the same titles, legends and ranges),
    print the same text, and either write no file or write the same image. *)
Theorem runs_agree (d : Data) (cs ls : list string) (w1 w2 : World) :
  result (script d cs ls w1) = result (script d cs ls w2) /\
  fig (final (script d cs ls w1)) = fig (final (script d cs ls w2)) /\
  (exists out,
     stdout (final (script d cs ls w1)) = stdout w1 ++ out /\
     stdout (final (script d cs ls w2)) = stdout w2 ++ out) /\
  ((files (final (script d cs ls w1)) = files w1 /\
    files (final (script d cs ls w2)) = files w2) \/
   (exists img,
      Py.getitem (files (final (script d cs ls w1))) output_path = inr img /\
      Py.getitem (files (final (script d cs ls w2))) output_path = inr img)).
Proof.
  rewrite !script_from_plot.
  assert (H : respects w1 w2 (plot_loop ;; render_finish ;; report)).
  { apply respects_bind; [apply respects_plot_loop | intros _].
    apply respects_bind; [apply respects_render_finish | intros _].
    apply respects_report. }
  destruct (H _ _ (sim_before_plot d cs ls w1 w2))
    as (Hr & _ & Hf & Ho & _ & Hfi).
  auto.
Qed.

(* ================================================================== *)
(** ** The rendering [.3f] rounds to nearest *)

Lemma round_half_even_nearest n d :
  0 < d -> Z.abs (2 * (n - Py.round_half_even n d * d)) <= d.
Proof.
  intros Hd. unfold Py.round_half_even.
  pose proof (Z.div_mod n d ltac:(lia)) as Hn.
  pose proof (Z.mod_pos_bound n d Hd) as Hr.
  assert (H0 : n - n / d * d = n mod d) by (rewrite Z.mod_eq by lia; ring).
  assert (H1 : n - (n / d + 1) * d = n mod d - d)
    by (rewrite Z.mod_eq by lia; ring).
  clear Hn. cbn zeta.
  destruct (Z.compare_spec (2 * (n mod d)) d) as [E | E | E].
  - destruct (Z.even (n / d)); [rewrite H0 | rewrite H1]; clear H0 H1;
      revert Hr E; generalize (n mod d); intros; lia.
  - rewrite H0. clear H0 H1. revert Hr E; generalize (n mod d); intros; lia.
  - rewrite H1. clear H0 H1. revert Hr E; generalize (n mod d); intros; lia.
Qed.

(** The thousandths printed for the float [m * 2^e] are within one half of
    [1000 * m * 2^e]; they are exact when [e] is not negative. *)
Lemma thousandths_nearest m e :
  (0 <= e -> Py.thousandths m e = 1000 * Z.pos m * 2 ^ e) /\
  (e < 0 ->
   Z.abs (2 * (1000 * Z.pos m - Py.thousandths m e * 2 ^ (- e))) <= 2 ^ (- e)).
Proof.
  unfold Py.thousandths. split; intros H.
  - replace (0 <=? e) with true by (symmetry; apply Z.leb_le; lia). reflexivity.
  - replace (0 <=? e) with false by (symmetry; apply Z.leb_gt; lia).
    apply round_half_even_nearest. apply Z.pow_pos_nonneg; lia.
Qed.

Example format_3f_tie_to_even_down : Py.format_3f 0.0625%float = "0.062".
Proof. vm_compute. reflexivity. Qed.

Example format_3f_tie_to_even_up : Py.format_3f 0.1875%float = "0.188".
Proof. vm_compute. reflexivity. Qed.

Example format_3f_negative : Py.format_3f (-12.3456)%float = "-12.346".
Proof. vm_compute. reflexivity. Qed.

Example format_3f_below_tie : Py.format_3f 2.675%float = "2.675".
Proof. vm_compute. reflexivity. Qed.

Example format_3f_negative_zero : Py.format_3f (-0.0001)%float = "-0.000".
Proof. vm_compute. reflexivity. Qed.

Example format_3f_wide : Py.format_r10_3f 1234567.891%float = "1234567.891".
Proof. vm_compute. reflexivity. Qed.

Example format_3f_not_finite :
  Py.format_r10_3f infinity = "       inf" /\
  Py.format_r10_3f neg_infinity = "      -inf" /\
  Py.format_r10_3f nan = "       nan".
Proof. repeat split; vm_compute; reflexivity. Qed.

Example one_point_run :
  result (script one_point colors line_styles fresh) = inr tt /\
  map (fun ax => map (fun ln => (xdata ln, List.length (ydata ln))) (lines ax))
    (axes (fig (final (script one_point colors line_styles fresh)))) =
    [[([1], 1%nat)]; [([1], 1%nat)]; [([1], 1%nat)]] /\
  stdout (final (script one_point colors line_styles fresh)) =
    title_line ++ rule ++ Py.nl ++ header ++ Py.nl ++ rule ++ Py.nl ++
    "A                                   0.500      1.000      0.500" ++ Py.nl ++
    rule ++ Py.nl.
Proof. repeat split; vm_compute; reflexivity. Qed.

Example model_first_wraps :
  map (fun ax => map style_of (lines ax))
    (axes (fig (final (script model_first colors line_styles fresh)))) =
    [[("A", "#e377c2", "--")]; [("A", "#e377c2", "--")]; [("A", "#e377c2", "--")]].
Proof. vm_compute. reflexivity. Qed.

Example eight_models_raise :
  result (script eight_models colors line_styles fresh) = inl Py.IndexError /\
  stdout (final (script eight_models colors line_styles fresh)) = "".
Proof. split; vm_compute; reflexivity. Qed.

Example forty_epochs_title :
  stdout (final (script forty_epochs colors line_styles fresh)) =
    title_line ++ rule ++ Py.nl ++ header ++ Py.nl ++ rule ++ Py.nl ++
    "A                                   0.250      1.500      0.750" ++ Py.nl ++
    rule ++ Py.nl.
Proof. vm_compute. reflexivity. Qed.

(* ================================================================== *)
(** ** When the summary completes *)

Lemma index_last_ok {A : Type} (l : list A) (dflt : A) :
  l <> [] -> Py.index l (-1) = inr (List.last l dflt).
Proof.
  intros Hne. destruct (exists_last Hne) as (l' & x & ->).
  rewrite last_last. unfold Py.index. cbn [Z.ltb Z.compare].
  rewrite length_app. cbn [List.length].
  replace (0 <=? -1 + Z.of_nat (List.length l' + 1)) with true
    by (symmetry; apply Z.leb_le; lia).
  replace (-1 + Z.of_nat (List.length l' + 1) <? Z.of_nat (List.length l' + 1))
    with true by (symmetry; apply Z.ltb_lt; lia).
  cbn [andb].
  replace (Z.to_nat (-1 + Z.of_nat (List.length l' + 1))) with (List.length l') by lia.
  rewrite nth_error_app2 by lia. rewrite Nat.sub_diag. reflexivity.
Qed.

Lemma index_inr_nonempty {A : Type} (l : list A) (i : Z) (a : A) :
  Py.index l i = inr a -> l <> [].
Proof.
  intros H ->. unfold Py.index in H. cbn [List.length Z.of_nat] in H.
  destruct (i <? 0) eqn:E.
  - apply Z.ltb_lt in E.
    replace (0 <=? i + 0) with false in H by (symmetry; apply Z.leb_gt; lia).
    discriminate.
  - replace (i <? 0) with false in H. rewrite andb_false_r in H. discriminate.
Qed.

(** A row is printed when its model has the three metrics with samples. *)
Lemma print_row_runs name values w :
  String.eqb name "epoch" = false ->
  (forall m, In m metrics -> exists ys, subscript values m = inr ys /\ ys <> []) ->
  print_row (name, values) w =
  (inr tt, set_stdout (stdout w ++ table_row (name, values)) w).
Proof.
  intros E H.
  destruct (H "loss") as (l & Hl & Hln); [cbn; auto |].
  destruct (H "pesq") as (p & Hp & Hpn); [cbn; auto |].
  destruct (H "stoi") as (s & Hs & Hsn); [cbn; auto |].
  unfold print_row. rewrite E. cbn [negb].
  unfold table_row, last_of. cbn [fst snd].
  rewrite bind_lift, Hl, bind_lift, (index_last_ok l 0%float Hln).
  rewrite bind_lift, Hp, bind_lift, (index_last_ok p 0%float Hpn).
  rewrite bind_lift, Hs, bind_lift, (index_last_ok s 0%float Hsn).
  unfold print, modify. f_equal. f_equal. f_equal.
  normalize_app. reflexivity.
Qed.

Lemma print_row_inv name values w w' :
  String.eqb name "epoch" = false ->
  print_row (name, values) w = (inr tt, w') ->
  forall m, In m metrics -> exists ys, subscript values m = inr ys /\ ys <> [].
Proof.
  intros E. unfold print_row. rewrite E. cbn [negb].
  rewrite bind_lift.
  destruct (subscript values "loss") as [e | l] eqn:Hl; [discriminate |].
  rewrite bind_lift. destruct (Py.index l (-1)) as [e | a] eqn:Ha; [discriminate |].
  rewrite bind_lift.
  destruct (subscript values "pesq") as [e | p] eqn:Hp; [discriminate |].
  rewrite bind_lift. destruct (Py.index p (-1)) as [e | b] eqn:Hb; [discriminate |].
  rewrite bind_lift.
  destruct (subscript values "stoi") as [e | s] eqn:Hs; [discriminate |].
  rewrite bind_lift. destruct (Py.index s (-1)) as [e | c] eqn:Hc; [discriminate |].
  intros _ m [<- | [<- | [<- | []]]].
  - exists l. split; [exact Hl | eapply index_inr_nonempty; exact Ha].
  - exists p. split; [exact Hp | eapply index_inr_nonempty; exact Hb].
  - exists s. split; [exact Hs | eapply index_inr_nonempty; exact Hc].
Qed.

Lemma print_rows_run :
  forall items w,
    (forall name values m,
        In (name, values) items -> String.eqb name "epoch" = false ->
        In m metrics -> exists ys, subscript values m = inr ys /\ ys <> []) ->
    for_each items print_row w =
    (inr tt, set_stdout (stdout w ++ rows_text items) w).
Proof.
  induction items as [| [name values] rest IH]; intros w H.
  - cbn. unfold rows_text, ret. cbn. rewrite string_app_nil_r, set_stdout_same.
    reflexivity.
  - cbn [for_each]. unfold rows_text. cbn [filter fst].
    destruct (String.eqb name "epoch") eqn:E; cbn [negb].
    + unfold print_row at 1. rewrite E. cbn [negb]. unfold bind at 1, ret.
      apply IH. intros n v m Hin. apply H. right. exact Hin.
    + erewrite bind_inr;
        [| apply print_row_runs;
           [exact E | intros m Hm; apply (H name values m); auto; left; reflexivity]].
      rewrite IH by (intros n v m Hin; apply H; right; exact Hin).
      cbn [stdout set_stdout map]. rewrite concat_cons_empty. unfold rows_text.
      rewrite string_app_assoc. reflexivity.
Qed.

Lemma print_rows_inv :
  forall items w w',
    for_each items print_row w = (inr tt, w') ->
    forall name values m,
      In (name, values) items -> String.eqb name "epoch" = false ->
      In m metrics -> exists ys, subscript values m = inr ys /\ ys <> [].
Proof.
  induction items as [| [n0 v0] rest IH]; intros w w' Hrun name values m Hin E Hm;
    [contradiction |].
  cbn [for_each] in Hrun. revert Hrun. run_head H1; [discriminate |].
  intros Hrest. destruct Hin as [[= -> ->] | Hin].
  - eapply print_row_inv; eassumption.
  - eapply IH; eassumption.
Qed.

Lemma report_runs (w : World) :
  reportable (g_data (globals w)) ->
  report w = (inr tt, set_stdout (stdout w ++ table (g_data (globals w))) w).
Proof.
  intros H. unfold report, read_data, print.
  rewrite !bind_modify, bind_gets. cbn [globals set_stdout stdout].
  erewrite bind_inr; [| apply print_rows_run; exact H].
  unfold modify, set_stdout. cbn [globals rcParams fig files shown stdout].
  f_equal. f_equal.
  unfold table, title_line, rows_text, models_of, Py.items.
  normalize_app. reflexivity.
Qed.

Lemma report_ok_iff (w : World) :
  result (report w) = inr tt <-> reportable (g_data (globals w)).
Proof.
  split; [| intros H; rewrite (report_runs w H); reflexivity].
  unfold report, read_data, print, result.
  rewrite !bind_modify, bind_gets. cbn [globals set_stdout stdout].
  run_head H1; [discriminate |].
  intros _ name values m. eapply print_rows_inv. exact H1.
Qed.

(** X1. The summary completes exactly when every model of the dataset has
    the keys [loss], [pesq] and [stoi] bound to non-empty sequences; when it
    does, the world it leaves is the one it started in with the table
    appended to standard output. *)
Theorem report_completes_iff (w : World) :
  (result (report w) = inr tt <-> reportable (g_data (globals w))) /\
  (result (report w) = inr tt ->
   final (report w) = set_stdout (stdout w ++ table (g_data (globals w))) w).
Proof.
  split; [exact (report_ok_iff w) |].
  intros H. apply report_ok_iff in H. rewrite (report_runs w H). reflexivity.
Qed.

Lemma report_completes_iff_witness :
  result (report at_summary) = inr tt /\
  final (report at_summary) =
    set_stdout (stdout at_summary ++ table data) at_summary.
Proof.
  split; [vm_compute; reflexivity |].
  apply (proj2 (report_completes_iff at_summary)).
  vm_compute; reflexivity.
Defined.

(* ================================================================== *)
(** ** When the chart completes *)

Section Draws.
Variables (d : Data) (cs ls : list string).

Lemma plot_model_draws n metric i model values w ax ln :
  globals w = mkGlobals d cs ls ->
  String.eqb model "epoch" = false ->
  nth_error (axes (fig w)) n = Some ax ->
  drawn_for d cs ls metric ln (i, (model, values)) ->
  plot_model (Z.of_nat n) metric (i, (model, values)) w =
  (inr tt, with_axes (plt.list_set (axes (fig w)) n (add_lines [ln] ax)) w).
Proof.
  intros HG E Hax (Hx & Hy & Hl & Hw & Hc & Hs & Hlen).
  destruct ln as [xs ys lbl lw c s]. cbn [xdata ydata label linewidth color
    linestyle fst snd] in *. subst lbl lw.
  unfold plot_model. rewrite E. cbn [negb].
  rewrite (bind_inr _ _ _ _ _ (axes_at_ok _ _ _ Hax)).
  unfold read_data, read_colors, read_line_styles.
  rewrite bind_gets, HG. cbn [g_data g_colors g_line_styles].
  rewrite bind_lift, Hx, bind_lift, Hy.
  rewrite bind_gets, HG. cbn [g_data g_colors g_line_styles].
  rewrite bind_lift, Hc.
  rewrite bind_gets, HG. cbn [g_data g_colors g_line_styles].
  rewrite bind_lift, Hs.
  apply call_ok with (ax := ax); [exact Hax |].
  unfold plt.plot. rewrite Hlen, Nat.eqb_refl. reflexivity.
Qed.

Lemma inner_loop_draws n metric :
  forall items new w ax,
    globals w = mkGlobals d cs ls ->
    nth_error (axes (fig w)) n = Some ax ->
    Forall2 (drawn_for d cs ls metric) new (filter is_model items) ->
    for_each items (plot_model (Z.of_nat n) metric) w =
    (inr tt, with_axes (plt.list_set (axes (fig w)) n (add_lines new ax)) w).
Proof.
  induction items as [| [i [model values]] rest IH]; intros new w ax HG Hax HF.
  - cbn in HF. inversion HF; subst. cbn. unfold ret.
    rewrite add_lines_nil, (list_set_same _ _ _ Hax), with_axes_same. reflexivity.
  - cbn [for_each filter] in *. unfold is_model at 1 in HF. cbn [fst snd] in HF.
    destruct (String.eqb model "epoch") eqn:E; cbn [negb] in HF.
    + rewrite (bind_inr _ _ _ _ _ (plot_model_skip _ _ _ _ _ _ E)).
      apply IH; assumption.
    + inversion HF as [| ln it new' its Hln Hrest]; subst.
      assert (Hn : (n < List.length (axes (fig w)))%nat)
        by (apply nth_error_Some; congruence).
      rewrite (bind_inr _ _ _ _ _ (plot_model_draws _ _ _ _ _ _ _ _ HG E Hax Hln)).
      rewrite (IH new' _ (add_lines [ln] ax));
        [| rewrite globals_with_axes; exact HG
         | rewrite axes_with_axes; now apply nth_error_list_set_eq
         | exact Hrest].
      rewrite axes_with_axes, with_axes_twice, list_set_twice, add_lines_app.
      reflexivity.
Qed.

Lemma panel_draws n metric t yl w ax new :
  globals w = mkGlobals d cs ls ->
  nth_error (axes (fig w)) n = Some ax ->
  Forall2 (drawn_for d cs ls metric) new
    (filter is_model (Py.enumerate (Py.items d))) ->
  panel (Z.of_nat n, (metric, t, yl)) w =
  (inr tt,
   with_axes (plt.list_set (axes (fig w)) n (decorate t yl (add_lines new ax))) w).
Proof.
  intros HG Hax HF. unfold panel, read_data. rewrite bind_gets, HG. cbn [g_data].
  rewrite (bind_inr _ _ _ _ _ (inner_loop_draws _ _ _ _ _ _ HG Hax HF)).
  assert (Hn : (n < List.length (axes (fig w)))%nat)
    by (apply nth_error_Some; congruence).
  do 5 (erewrite bind_inr; [| apply call_on_set; [exact Hn | reflexivity]]).
  erewrite call_on_set; [| exact Hn | reflexivity].
  reflexivity.
Qed.

Lemma plot_loop_draws w a0 a1 a2 n0 n1 n2 :
  globals w = mkGlobals d cs ls ->
  axes (fig w) = [a0; a1; a2] ->
  Forall2 (drawn_for d cs ls "loss") n0 (filter is_model (Py.enumerate (Py.items d))) ->
  Forall2 (drawn_for d cs ls "pesq") n1 (filter is_model (Py.enumerate (Py.items d))) ->
  Forall2 (drawn_for d cs ls "stoi") n2 (filter is_model (Py.enumerate (Py.items d))) ->
  plot_loop w =
  (inr tt,
   with_axes [decorate "Training Loss" "Loss" (add_lines n0 a0);
              decorate "PESQ Score" "PESQ" (add_lines n1 a1);
              decorate "STOI Score" "STOI" (add_lines n2 a2)] w).
Proof.
  intros HG Ha F0 F1 F2. unfold plot_loop.
  change (Py.enumerate (Py.zip3 metrics titles ylabels))
    with [(Z.of_nat 0, ("loss", "Training Loss", "Loss"));
          (Z.of_nat 1, ("pesq", "PESQ Score", "PESQ"));
          (Z.of_nat 2, ("stoi", "STOI Score", "STOI"))].
  cbn [for_each].
  rewrite (bind_inr _ _ _ _ _
             (panel_draws 0 _ _ _ _ a0 _ HG ltac:(now rewrite Ha) F0)).
  rewrite Ha. cbn [plt.list_set].
  erewrite bind_inr; [| apply panel_draws with (ax := a1); [exact HG | reflexivity | exact F1]].
  rewrite axes_with_axes, with_axes_twice. cbn [plt.list_set].
  erewrite bind_inr; [| apply panel_draws with (ax := a2); [exact HG | reflexivity | exact F2]].
  rewrite axes_with_axes, with_axes_twice. cbn [plt.list_set].
  reflexivity.
Qed.
End Draws.





Lemma after_plot_data w : g_data (globals (after_plot w)) = g_data (globals w).
Proof. reflexivity. Qed.



(* ================================================================== *)
(** ** The figure of a completed run *)

Lemma drawn_lines_from d cs ls xs m :
  Py.getitem d "epoch" = inr (VList xs) ->
  forall series k new,
    Forall2 (drawn_for d cs ls m) new
      (Py.enumerate_from (Z.of_nat k + 1) series) ->
    new = map (line_of xs m cs ls) (combine (seq k (List.length series)) series).
Proof.
  intros Hep. induction series as [| [name v] rest IH]; intros k new H; cbn in H.
  - inversion H. reflexivity.
  - inversion H as [| ln it new' its Hln Hrest]; subst.
    cbn [List.length seq combine map]. f_equal.
    + destruct Hln as (Hx & Hy & Hl & Hw & Hc & Hs & _). cbn [fst snd] in *.
      replace (Z.of_nat k + 1 - 1) with (Z.of_nat k) in * by lia.
      apply index_inr_nth in Hc, Hs.
      rewrite Hep in Hx. injection Hx as Hx.
      unfold line_of. cbn [fst snd]. rewrite Hy.
      rewrite (nth_error_nth _ _ _ Hc), (nth_error_nth _ _ _ Hs).
      destruct ln; cbn in *; subst; reflexivity.
    + replace (Z.of_nat k + 1 + 1) with (Z.of_nat (S k) + 1) in Hrest by lia.
      apply IH, Hrest.
Qed.

(** X3. A completed run on a dataset whose first key is [epoch] and whose
    models all have a name leaves exactly three panels; the panel of a metric
    holds, for each model in insertion order, the line of the epoch list
    against that model's sequence for the metric, labelled with the model's
    name, of width 2, in the colour and style of the model's position; it
    carries its own title and y label, the x label [Epoch], the grid, a
    legend of the lines whose label does not start with an underscore, and
    the x range (0, 30). *)
Theorem chart_of_completed_run (xs : list Z) (series : Data)
    (cs ls : list string) (w : World) :
  no_epoch_key series = true ->
  named series = true ->
  result (script (("epoch", VList xs) :: series) cs ls w) = inr tt ->
  axes (fig (final (script (("epoch", VList xs) :: series) cs ls w))) =
    [panel_of xs series cs ls "loss" "Training Loss" "Loss";
     panel_of xs series cs ls "pesq" "PESQ Score" "PESQ";
     panel_of xs series cs ls "stoi" "STOI Score" "STOI"].
Proof.
  intros Hk _ Hr.
  destruct (script_ok _ _ _ _ Hr) as (n0 & n1 & n2 & F0 & F1 & F2 & ->).
  unfold Py.enumerate, Py.items in *. cbn [Py.enumerate_from filter] in *.
  unfold is_model at 1 in F0. unfold is_model at 1 in F1. unfold is_model at 1 in F2.
  cbn [fst snd String.eqb Ascii.eqb Bool.eqb negb] in *.
  rewrite filter_models_from in * by assumption.
  change (0 + 1) with (Z.of_nat 0 + 1) in *.
  apply drawn_lines_from with (xs := xs) in F0, F1, F2; try reflexivity.
  subst. reflexivity.
Qed.

(** The literal dataset: seven named models. *)
Lemma chart_of_completed_run_witness :
  axes (fig (final (main fresh))) =
    [panel_of [1; 5; 10; 15; 20; 25; 30] (tl data) colors line_styles
       "loss" "Training Loss" "Loss";
     panel_of [1; 5; 10; 15; 20; 25; 30] (tl data) colors line_styles
       "pesq" "PESQ Score" "PESQ";
     panel_of [1; 5; 10; 15; 20; 25; 30] (tl data) colors line_styles
       "stoi" "STOI Score" "STOI"] /\
  map (fun ax => option_map (@List.length string) (legend ax))
    (axes (fig (final (main fresh)))) = [Some 7%nat; Some 7%nat; Some 7%nat].
Proof.
  split; [| vm_compute; reflexivity].
  apply (chart_of_completed_run [1; 5; 10; 15; 20; 25; 30] (tl data)
           colors line_styles fresh).
  - reflexivity.
  - reflexivity.
  - vm_compute; reflexivity.
Defined.

(* ================================================================== *)
(** ** What is written and shown *)

(** The fields the summary leaves alone. *)
Lemma report_only_prints w :
  exists out, final (report w) = set_stdout (stdout w ++ out) w.
Proof.
  apply (keeps_report (fun w' => exists out, w' = set_stdout (stdout w ++ out) w)).
  - intros w' s [out ->]. exists (out ++ s). cbn [stdout set_stdout].
    unfold set_stdout. cbn. now rewrite string_app_assoc.
  - exists "". rewrite string_app_nil_r. symmetry. apply set_stdout_same.
Qed.

(** X4. When the script completes, the file [training_metrics_comparison.png]
    holds the figure as the run leaves it (tight layout, adjusted margins),
    at 300 dpi, and that same figure is the one figure the run has shown. *)
Theorem saved_image_is_final_figure (d : Data) (cs ls : list string) (w : World) :
  result (script d cs ls w) = inr tt ->
  Py.getitem (files (final (script d cs ls w))) output_path =
    inr (fig (final (script d cs ls w)), 300) /\
  shown (final (script d cs ls w)) = (shown w ++ [fig (final (script d cs ls w))])%list /\
  tight (fig (final (script d cs ls w))) = true /\
  adjusted (fig (final (script d cs ls w))) = Some (0.85, 0.3)%float.
Proof.
  rewrite script_phases.
  destruct (plot_loop (before_plot d cs ls w)) as [[e | []] w1] eqn:H;
    [discriminate |].
  intros _.
  pose proof (keeps_plot_loop (fun w' => shown w' = shown w)
                (fun _ _ H => H) (before_plot d cs ls w) eq_refl) as Hs.
  rewrite H in Hs. cbn [final snd] in Hs.
  destruct (report_only_prints (after_plot w1)) as [out ->].
  cbn [files fig shown set_stdout after_plot final snd render_finish].
  repeat split.
  - apply getitem_setitem.
  - cbn. now rewrite Hs.
Qed.

Lemma saved_image_is_final_figure_witness :
  Py.getitem (files (final (script one_point colors line_styles fresh))) output_path =
    inr (fig (final (script one_point colors line_styles fresh)), 300) /\
  shown (final (script one_point colors line_styles fresh)) =
    (shown fresh ++ [fig (final (script one_point colors line_styles fresh))])%list /\
  tight (fig (final (script one_point colors line_styles fresh))) = true /\
  adjusted (fig (final (script one_point colors line_styles fresh))) =
    Some (0.85, 0.3)%float.
Proof.
  apply (saved_image_is_final_figure one_point colors line_styles fresh).
  vm_compute; reflexivity.
Defined.

(** X5. Whether the run completes or raises, and whatever the dataset, no
    file other than [training_metrics_comparison.png] is created or changed. *)
Theorem other_files_untouched (d : Data) (cs ls : list string) (w : World)
    (path : string) :
  path <> output_path ->
  Py.getitem (files (final (script d cs ls w))) path = Py.getitem (files w) path.
Proof.
  intros Hp. rewrite script_phases.
  pose proof (keeps_plot_loop (fun w' => files w' = files w)
                (fun _ _ H => H) (before_plot d cs ls w) eq_refl) as Hf.
  destruct (plot_loop (before_plot d cs ls w)) as [[e | []] w1] eqn:H;
    cbn [final snd] in *.
  - now rewrite Hf.
  - destruct (report_only_prints (after_plot w1)) as [out ->].
    cbn [files set_stdout after_plot final snd render_finish]. cbn.
    rewrite getitem_setitem_other by congruence. now rewrite Hf.
Qed.

Lemma other_files_untouched_witness :
  Py.getitem (files (final (script data colors line_styles fresh))) "notes.txt" =
  Py.getitem (files fresh) "notes.txt".
Proof.
  apply (other_files_untouched data colors line_styles fresh "notes.txt").
  discriminate.
Defined.

(** X6. The two parts of the script do not touch each other's output: the
    chart code (lines 56-87) prints nothing, and the summary (lines 90-97)
    only appends to standard output, leaving the globals, the figure, the
    files and the configuration as they were, also when it raises. *)
Theorem chart_and_summary_are_separate (cs ls : list string) (w : World) :
  stdout (final (render cs ls w)) = stdout w /\
  exists out, final (report w) = set_stdout (stdout w ++ out) w.
Proof.
  split; [| apply report_only_prints].
  apply (keeps_render (fun w' => stdout w' = stdout w)).
  - intros w' f H. exact H.
  - intros w' cs' ls' H. exact H.
  - intros w' fs H. exact H.
  - intros w' sh H. exact H.
  - reflexivity.
Qed.

(* ================================================================== *)
(** ** Which exception a failed chart raises *)

Lemma getitem_inl {V : Type} (d : Py.dict V) k e :
  Py.getitem d k = inl e -> e = Py.KeyError k.
Proof.
  induction d as [| [k0 v0] rest IH]; cbn.
  - now intros [= <-].
  - destruct (String.eqb k0 k); [discriminate | exact IH].
Qed.


(** The body of the inner loop up to the two palette lookups. *)
Lemma plot_model_lookups n m i name v w ax :
  String.eqb name "epoch" = false ->
  nth_error (axes (fig w)) n = Some ax ->
  plot_model (Z.of_nat n) m (i, (name, v)) w =
  match Py.getitem (g_data (globals w)) "epoch" with
  | inl e => (inl e, w)
  | inr x =>
      match subscript v m with
      | inl e => (inl e, w)
      | inr y =>
          match Py.index (g_colors (globals w)) (i - 1) with
          | inl e => (inl e, w)
          | inr c =>
              match Py.index (g_line_styles (globals w)) (i - 1) with
              | inl e => (inl e, w)
              | inr s => plt.call (Z.of_nat n) (plt.plot x y name 2 c s) w
              end
          end
      end
  end.
Proof.
  intros E Hax. unfold plot_model. rewrite E. cbn [negb].
  rewrite (bind_inr _ _ _ _ _ (axes_at_ok _ _ _ Hax)).
  unfold read_data, read_colors, read_line_styles.
  rewrite bind_gets, bind_lift.
  destruct (Py.getitem (g_data (globals w)) "epoch"); [reflexivity |].
  rewrite bind_lift. destruct (subscript v m); [reflexivity |].
  rewrite bind_gets, bind_lift.
  destruct (Py.index (g_colors (globals w)) (i - 1)); [reflexivity |].
  rewrite bind_gets, bind_lift.
  destruct (Py.index (g_line_styles (globals w)) (i - 1)); reflexivity.
Qed.

Lemma panel_raises_in_loop idx m t yl w e :
  result (for_each (Py.enumerate (Py.items (g_data (globals w))))
            (plot_model idx m) w) = inl e ->
  result (panel (idx, (m, t, yl)) w) = inl e.
Proof.
  intros H. unfold panel, read_data. rewrite bind_gets.
  rewrite (bind_raises _ _ _ _ H). reflexivity.
Qed.

Lemma plot_loop_raises_first w e :
  result (panel (0, ("loss", "Training Loss", "Loss")) w) = inl e ->
  result (plot_loop w) = inl e.
Proof.
  intros H. unfold plot_loop.
  change (Py.enumerate (Py.zip3 metrics titles ylabels))
    with [(0, ("loss", "Training Loss", "Loss"));
          (1, ("pesq", "PESQ Score", "PESQ"));
          (2, ("stoi", "STOI Score", "STOI"))].
  cbn [for_each]. rewrite (bind_raises _ _ _ _ H). reflexivity.
Qed.

(** A run whose plot loop raises ends there: nothing is written or printed. *)
Lemma script_raises_in_plot d cs ls w e :
  result (plot_loop (before_plot d cs ls w)) = inl e ->
  result (script d cs ls w) = inl e /\
  stdout (final (script d cs ls w)) = stdout w /\
  files (final (script d cs ls w)) = files w.
Proof.
  intros H. rewrite script_phases.
  pose proof (keeps_plot_loop (untouched (stdout w) (files w))
                (untouched_ignores_fig _ _) (before_plot d cs ls w)
                (conj eq_refl eq_refl)) as [Ho Hf].
  unfold result, final in *.
  destruct (plot_loop (before_plot d cs ls w)) as [[e' | []] w1];
    cbn [fst snd] in *; [| discriminate].
  auto.
Qed.

(** X7. A dataset with at least one entry and no [epoch] key makes the run
    raise [KeyError('epoch')] at the first call of [plot]: nothing has been
    printed or written. *)
Theorem missing_epoch_raises_KeyError (d : Data) (cs ls : list string)
    (w : World) (e : Py.exn) :
  d <> [] ->
  Py.getitem d "epoch" = inl e ->
  result (script d cs ls w) = inl (Py.KeyError "epoch") /\
  stdout (final (script d cs ls w)) = stdout w /\
  files (final (script d cs ls w)) = files w.
Proof.
  intros Hne He. apply script_raises_in_plot.
  apply plot_loop_raises_first. apply panel_raises_in_loop.
  destruct d as [| [name v] rest]; [contradiction |].
  assert (E : String.eqb name "epoch" = false).
  { cbn in He. destruct (String.eqb name "epoch"); [discriminate | reflexivity]. }
  set (W := before_plot ((name, v) :: rest) cs ls w).
  change (g_data (globals W)) with ((name, v) :: rest).
  cbn [Py.items Py.enumerate Py.enumerate_from for_each].
  erewrite bind_raises; [reflexivity |].
  change 0 with (Z.of_nat 0) at 1.
  rewrite (plot_model_lookups 0 "loss" 0 name v W (plt.new_axes true) E eq_refl).
  change (g_data (globals W)) with ((name, v) :: rest). rewrite He.
  apply getitem_inl in He. subst e. reflexivity.
Qed.

Lemma missing_epoch_raises_KeyError_witness :
  result (script (tl one_point) colors line_styles fresh) = inl (Py.KeyError "epoch") /\
  stdout (final (script (tl one_point) colors line_styles fresh)) = stdout fresh /\
  files (final (script (tl one_point) colors line_styles fresh)) = files fresh.
Proof.
  apply (missing_epoch_raises_KeyError (tl one_point) colors line_styles fresh
           (Py.KeyError "epoch")).
  - discriminate.
  - reflexivity.
Defined.





Lemma for_each_app {A : Type} (a b : list A) (body : A -> M unit) w w' :
  for_each a body w = (inr tt, w') ->
  for_each (a ++ b) body w = for_each b body w'.
Proof.
  revert w. induction a as [| x a IH]; intros w.
  - cbn. unfold ret. now intros [= <-].
  - change ((x :: a) ++ b)%list with (x :: (a ++ b))%list. cbn [for_each].
    unfold bind at 1 2. destruct (body x w) as [[e | []] w0]; [discriminate |].
    apply IH.
Qed.





(* ================================================================== *)
(** ** Printed numbers and row widths *)

(** X10. For a finite non-zero float [m * 2^e] the text printed by [.3f] is
    the sign followed by the thousandths [t] nearest to its magnitude:
    [|1000 * m * 2^e - t| <= 1/2], written here over the integers. *)
Theorem format_3f_rounds_to_nearest (x : float) (s : bool) (m : positive)
    (e : Z) :
  Prim2SF x = S754_finite s m e ->
  let t := Py.thousandths m e in
  Py.format_3f x = Py.sign_str s ++ Py.fixed3 t /\
  0 <= t /\
  Z.abs (2 * (1000 * Z.pos m * 2 ^ Z.max 0 e - t * 2 ^ Z.max 0 (- e)))
    <= 2 ^ Z.max 0 (- e).
Proof.
  intros Hx t. split; [unfold Py.format_3f; rewrite Hx; reflexivity |].
  subst t. destruct (Z.leb_spec 0 e) as [He | He].
  - rewrite (proj1 (thousandths_nearest m e) He).
    rewrite (Z.max_r 0 e), (Z.max_l 0 (- e)) by lia.
    rewrite Z.pow_0_r, Z.mul_1_r, Z.sub_diag.
    assert (0 <= 2 ^ e) by (apply Z.pow_nonneg; lia).
    split; [apply Z.mul_nonneg_nonneg; lia | rewrite Z.mul_0_r; cbn; lia].
  - rewrite (Z.max_l 0 e), (Z.max_r 0 (- e)) by lia.
    rewrite Z.pow_0_r, Z.mul_1_r.
    split; [| apply (proj2 (thousandths_nearest m e)); exact He].
    unfold Py.thousandths.
    replace (0 <=? e) with false by (symmetry; apply Z.leb_gt; lia).
    unfold Py.round_half_even.
    assert (Hd : 0 < 2 ^ (- e)) by (apply Z.pow_pos_nonneg; lia).
    pose proof (Z.div_pos (1000 * Z.pos m) (2 ^ (- e)) ltac:(lia) Hd).
    destruct (_ ?= _); [destruct (Z.even _) |..]; lia.
Qed.

Lemma format_3f_rounds_to_nearest_witness :
  Py.format_3f 0.0625%float = "0.062" /\
  Z.abs (2 * (1000 * 4503599627370496 * 2 ^ Z.max 0 (-56) - 62 * 2 ^ Z.max 0 56))
    <= 2 ^ Z.max 0 56.
Proof.
  destruct (format_3f_rounds_to_nearest 0.0625%float false 4503599627370496 (-56)
              ltac:(vm_compute; reflexivity)) as (H1 & _ & H3).
  split; [exact H1 | exact H3].
Defined.

(** X11. A printed row is as wide as its four fields and three separating
    spaces: a name of at most 30 characters and numbers of at most 10 give
    the fixed width 63; a longer name or number widens its own field and
    shifts what follows. *)
Theorem row_width (name : string) (values : value) (w w' : World) :
  String.eqb name "epoch" = false ->
  print_row (name, values) w = (inr tt, w') ->
  String.length (stdout w') =
    (String.length (stdout w) +
     (Nat.max 30 (String.length name) + 1 +
      Nat.max 10 (String.length (Py.format_3f (last_of values "loss"))) + 1 +
      Nat.max 10 (String.length (Py.format_3f (last_of values "pesq"))) + 1 +
      Nat.max 10 (String.length (Py.format_3f (last_of values "stoi"))) + 1))%nat.
Proof.
  intros E H. apply print_row_ok in H; [| exact E]. subst w'.
  cbn [stdout set_stdout]. unfold table_row, Py.format_l30, Py.format_r10_3f.
  cbn [fst snd].
  repeat rewrite string_length_app. rewrite length_ljust, !length_rjust.
  cbn [String.length Py.nl]. lia.
Qed.

Lemma row_width_witness :
  String.length
    (stdout (final (print_row ("A", VDict [ ("loss", [0.5]%float);
                                            ("pesq", [1.0]%float);
                                            ("stoi", [0.5]%float) ]) fresh))) =
  64%nat.
Proof.
  rewrite (row_width "A"
             (VDict [ ("loss", [0.5]%float); ("pesq", [1.0]%float);
                      ("stoi", [0.5]%float) ])
             fresh
             (final (print_row ("A", VDict [ ("loss", [0.5]%float);
                                             ("pesq", [1.0]%float);
                                             ("stoi", [0.5]%float) ]) fresh))
             eq_refl).
  - vm_compute; reflexivity.
  - vm_compute; reflexivity.
Defined.

(* ================================================================== *)
(** ** A row that cannot be printed *)

Lemma print_row_raises_clean it w e :
  result (print_row it w) = inl e -> final (print_row it w) = w.
Proof.
  destruct it as [name values]. unfold print_row.
  destruct (negb (String.eqb name "epoch")); [| discriminate].
  rewrite bind_lift. destruct (subscript values "loss") as [e0 | l]; [reflexivity |].
  rewrite bind_lift. destruct (Py.index l (-1)) as [e0 | a]; [reflexivity |].
  rewrite bind_lift. destruct (subscript values "pesq") as [e0 | p]; [reflexivity |].
  rewrite bind_lift. destruct (Py.index p (-1)) as [e0 | b]; [reflexivity |].
  rewrite bind_lift. destruct (subscript values "stoi") as [e0 | s]; [reflexivity |].
  rewrite bind_lift. destruct (Py.index s (-1)) as [e0 | c]; [reflexivity |].
  discriminate.
Qed.

(** X12. When the first model that lacks a metric, or has an empty sequence
    for it, comes after models that can be printed, the summary raises at
    that model's row: the title, the header and the rows of the models before
    it are already printed, the closing rule is not. *)
Theorem report_stops_at_first_bad_row (w : World) (good rest : Data)
    (name m : string) (v : value) :
  g_data (globals w) = (good ++ (name, v) :: rest)%list ->
  reportable good ->
  String.eqb name "epoch" = false ->
  In m metrics ->
  (forall ys, subscript v m = inr ys -> ys = []) ->
  exists e,
    result (report w) = inl e /\
    stdout (final (report w)) =
      stdout w ++ title_line ++ rule ++ Py.nl ++ header ++ Py.nl ++ rule ++ Py.nl ++
      rows_text good.
Proof.
  intros Hd Hgood E Hm Hbad.
  assert (Hloop : forall W, exists e,
             for_each (good ++ (name, v) :: rest) print_row W =
             (inl e, set_stdout (stdout W ++ rows_text good) W)).
  { intros W. rewrite (for_each_app _ _ _ _ _ (print_rows_run good W Hgood)).
    cbn [for_each].
    destruct (print_row (name, v) (set_stdout (stdout W ++ rows_text good) W))
      as [[e | []] w1] eqn:Hrow.
    - exists e. rewrite (bind_inl _ _ _ _ _ Hrow). f_equal.
      pose proof (print_row_raises_clean (name, v)
                    (set_stdout (stdout W ++ rows_text good) W) e) as Hc.
      unfold result, final in Hc. rewrite Hrow in Hc. apply Hc. reflexivity.
    - exfalso. destruct (print_row_inv _ _ _ _ E Hrow m Hm) as (ys & Hy & Hne).
      apply Hne, Hbad, Hy. }
  unfold report, read_data, print. rewrite !bind_modify, bind_gets.
  cbn [globals set_stdout stdout]. rewrite Hd. unfold Py.items.
  match goal with
  | |- context [bind (for_each _ print_row) _ ?W] =>
      destruct (Hloop W) as [e He]; exists e;
      rewrite (bind_inl _ _ _ _ _ He)
  end.
  split; [reflexivity |].
  cbn [final snd stdout set_stdout]. unfold title_line.
  normalize_app. reflexivity.
Qed.

Lemma report_stops_at_first_bad_row_witness :
  exists e,
    result (report (set_globals (mkGlobals second_row_empty [] []) fresh)) = inl e /\
    stdout (final (report (set_globals (mkGlobals second_row_empty [] []) fresh))) =
      stdout (set_globals (mkGlobals second_row_empty [] []) fresh) ++
      title_line ++ rule ++ Py.nl ++ header ++ Py.nl ++ rule ++ Py.nl ++
      rows_text (firstn 2 second_row_empty).
Proof.
  apply (report_stops_at_first_bad_row
           (set_globals (mkGlobals second_row_empty [] []) fresh)
           (firstn 2 second_row_empty) [] "B" "pesq"
           (VDict [ ("loss", [0.5]%float); ("pesq", []); ("stoi", [0.5]%float) ])).
  - reflexivity.
  - intros name values m [[= <- <-] | [[= <- <-] | []]] E Hm; [discriminate |].
    destruct Hm as [<- | [<- | [<- | []]]]; eexists; (split; [reflexivity | discriminate]).
  - reflexivity.
  - right. left. reflexivity.
  - intros ys [= <-]. reflexivity.
Defined.

(* ================================================================== *)
(** ** The order of chart and summary *)

Lemma blind_ret {A : Type} (a : A) : blind (ret a).
Proof. intros s w. reflexivity. Qed.

Lemma blind_lift {A : Type} (r : Py.exn + A) : blind (lift r).
Proof. intros s w. reflexivity. Qed.

Lemma blind_gets {A : Type} (f : World -> A) :
  (forall s w, f (set_stdout s w) = f w) -> blind (gets f).
Proof. intros Hf s w. unfold gets. now rewrite Hf. Qed.

Lemma blind_modify (f : World -> World) :
  (forall s w, f (set_stdout s w) = set_stdout s (f w)) -> blind (modify f).
Proof. intros Hf s w. unfold modify. now rewrite Hf. Qed.

Lemma blind_bind {A B : Type} (c : M A) (k : A -> M B) :
  blind c -> (forall a, blind (k a)) -> blind (bind c k).
Proof.
  intros Hc Hk s w. unfold bind. rewrite Hc.
  destruct (c w) as [[e | a] w1]; cbn [fst snd]; [reflexivity |].
  apply Hk.
Qed.

Lemma blind_for_each {A : Type} (xs : list A) (body : A -> M unit) :
  (forall x, blind (body x)) -> blind (for_each xs body).
Proof.
  intros Hb. induction xs as [| x rest IH]; cbn [for_each].
  - apply blind_ret.
  - apply blind_bind; [apply Hb | intros _; exact IH].
Qed.

Lemma blind_call idx m : blind (plt.call idx m).
Proof.
  unfold plt.call, plt.axes_at.
  apply blind_bind; [| intros ax].
  { apply blind_bind; [apply blind_gets; reflexivity | intros a; apply blind_lift]. }
  apply blind_bind; [apply blind_lift | intros ax'].
  apply blind_modify. reflexivity.
Qed.

Lemma blind_plot_model idx metric it : blind (plot_model idx metric it).
Proof.
  destruct it as [i [model values]]. unfold plot_model.
  destruct (negb (String.eqb model "epoch")); [| apply blind_ret].
  unfold plt.axes_at, read_data, read_colors, read_line_styles.
  apply blind_bind; [| intros _].
  { apply blind_bind; [apply blind_gets; reflexivity | intros a; apply blind_lift]. }
  apply blind_bind; [apply blind_gets; reflexivity | intros d].
  apply blind_bind; [apply blind_lift | intros x].
  apply blind_bind; [apply blind_lift | intros y].
  apply blind_bind; [apply blind_gets; reflexivity | intros cs].
  apply blind_bind; [apply blind_lift | intros c].
  apply blind_bind; [apply blind_gets; reflexivity | intros ls].
  apply blind_bind; [apply blind_lift | intros s].
  apply blind_call.
Qed.

Lemma blind_panel it : blind (panel it).
Proof.
  destruct it as [idx [[metric t] yl]]. unfold panel, read_data.
  apply blind_bind; [apply blind_gets; reflexivity | intros d].
  apply blind_bind.
  { apply blind_for_each. intros x. apply blind_plot_model. }
  intros _.
  do 5 (apply blind_bind; [apply blind_call | intros _]).
  apply blind_call.
Qed.

Lemma blind_render cs ls : blind (render cs ls).
Proof.
  unfold render, plt.subplots, plt.fig_suptitle, plt.tight_layout,
    plt.subplots_adjust, plt.savefig, plt.show.
  do 4 (apply blind_bind; [apply blind_modify; reflexivity | intros _]).
  apply blind_bind.
  { apply blind_for_each. intros x. apply blind_panel. }
  intros _.
  do 3 (apply blind_bind; [apply blind_modify; reflexivity | intros _]).
  apply blind_modify. reflexivity.
Qed.

(** X13. When the chart code and the summary both complete, their order
    does not matter: printing the summary first and drawing afterwards ends
    in the same world (same figure, file, shown figure and printed text) as
    the script's order. *)
Theorem chart_and_summary_commute (cs ls : list string) (w : World) :
  result (render cs ls w) = inr tt ->
  result (report w) = inr tt ->
  (report ;; render cs ls) w = (render cs ls ;; report) w.
Proof.
  intros Hc Hs. apply report_ok_iff in Hs.
  unfold bind at 1. rewrite (report_runs w Hs).
  rewrite blind_render.
  pose proof (keeps_render (data_is (g_data (globals w))) cs ls
                (proj1 (data_is_ignores _))
                (proj1 (proj2 (data_is_ignores _)))
                (proj1 (proj2 (proj2 (data_is_ignores _))))
                (proj1 (proj2 (proj2 (proj2 (data_is_ignores _)))))
                w eq_refl) as Hd.
  pose proof (keeps_render (fun w' => stdout w' = stdout w) cs ls
                (fun _ _ H => H) (fun _ _ _ H => H) (fun _ _ H => H)
                (fun _ _ H => H) w eq_refl) as Ho.
  unfold bind, result, final, data_is in *.
  destruct (render cs ls w) as [[e | []] w1]; cbn [fst snd] in *; [discriminate |].
  rewrite <- Hd in Hs. rewrite (report_runs w1 Hs), Hd, Ho. reflexivity.
Qed.

Lemma chart_and_summary_commute_witness :
  (report ;; render colors line_styles)
    (set_globals (mkGlobals one_point [] []) fresh) =
  (render colors line_styles ;; report)
    (set_globals (mkGlobals one_point [] []) fresh).
Proof.
  apply (chart_and_summary_commute colors line_styles
           (set_globals (mkGlobals one_point [] []) fresh));
    vm_compute; reflexivity.
Defined.

(* ================================================================== *)
(** ** What a completed run prints and draws, for any dataset *)

(** X14. A completed run prints exactly the table of its dataset after
    whatever was on standard output before: title, rule, header, rule, one
    row per model in insertion order, closing rule. *)
Theorem printed_text_of_completed_run (d : Data) (cs ls : list string)
    (w : World) :
  result (script d cs ls w) = inr tt ->
  stdout (final (script d cs ls w)) = stdout w ++ table d.
Proof.
  rewrite script_phases.
  pose proof (keeps_plot_loop (fun w' => stdout w' = stdout w)
                (fun _ _ H => H) (before_plot d cs ls w) eq_refl) as Ho.
  pose proof (keeps_plot_loop (data_is d) (proj1 (data_is_ignores d))
                (before_plot d cs ls w) eq_refl) as Hd.
  destruct (plot_loop (before_plot d cs ls w)) as [[e | []] w1];
    [discriminate |].
  cbn [final snd] in Ho, Hd. unfold data_is in Hd.
  intros Hr. apply report_ok_iff in Hr.
  rewrite (report_runs _ Hr). cbn [final snd stdout set_stdout].
  rewrite after_plot_data, Hd.
  change (stdout (after_plot w1)) with (stdout w1). now rewrite Ho.
Qed.

Lemma printed_text_of_completed_run_witness :
  stdout (final (script forty_epochs colors line_styles fresh)) =
  stdout fresh ++ table forty_epochs.
Proof.
  apply (printed_text_of_completed_run forty_epochs colors line_styles fresh).
  vm_compute; reflexivity.
Defined.

Lemma no_models_filter d start :
  no_models d = true -> filter is_model (Py.enumerate_from start d) = [].
Proof.
  revert start. induction d as [| [name v] rest IH]; intros start H; cbn in *.
  - reflexivity.
  - apply andb_true_iff in H as [H1 H2]. unfold is_model at 1. cbn [fst snd].
    rewrite H1. cbn [negb]. now apply IH.
Qed.

Lemma no_models_reportable d : no_models d = true -> reportable d.
Proof.
  intros H name values m Hin E _. exfalso.
  unfold no_models in H. rewrite forallb_forall in H.
  specialize (H _ Hin). cbn [fst] in H. congruence.
Qed.

Lemma no_models_rows d : no_models d = true -> models_of d = [].
Proof.
  unfold models_of, Py.items. induction d as [| [name v] rest IH]; intros H; cbn in *.
  - reflexivity.
  - apply andb_true_iff in H as [H1 H2]. rewrite H1. cbn [negb]. now apply IH.
Qed.

(** X15. A dataset without models (an empty dictionary, or only the [epoch]
    key with any value) still runs to the end, whatever the palette: the
    three panels are decorated but hold no line and have an empty legend, the
    image is saved, and the table is printed without rows. *)
Theorem run_without_models (d : Data) (cs ls : list string) (w : World) :
  no_models d = true ->
  result (script d cs ls w) = inr tt /\
  axes (fig (final (script d cs ls w))) =
    [decorate "Training Loss" "Loss" plt.empty_axes;
     decorate "PESQ Score" "PESQ" plt.empty_axes;
     decorate "STOI Score" "STOI" plt.empty_axes] /\
  map legend (axes (fig (final (script d cs ls w)))) =
    [Some []; Some []; Some []] /\
  stdout (final (script d cs ls w)) =
    stdout w ++ title_line ++ rule ++ Py.nl ++ header ++ Py.nl ++ rule ++ Py.nl ++
    rule ++ Py.nl.
Proof.
  intros H. rewrite script_phases.
  assert (HF : forall m, Forall2 (drawn_for d cs ls m) []
                           (filter is_model (Py.enumerate (Py.items d)))).
  { intros m. unfold Py.enumerate, Py.items. rewrite no_models_filter by exact H.
    constructor. }
  rewrite (plot_loop_draws d cs ls (before_plot d cs ls w)
             (plt.new_axes true) (plt.new_axes true) (plt.new_axes true) [] [] []
             eq_refl eq_refl (HF _) (HF _) (HF _)).
  rewrite report_runs by (apply no_models_reportable; exact H).
  cbn [result final fst snd]. split; [reflexivity |].
  split; [reflexivity |]. split; [reflexivity |].
  cbn [stdout set_stdout]. unfold table.
  change (g_data (globals (after_plot _))) with d.
  rewrite (no_models_rows d H). cbn [map String.concat].
  normalize_app. reflexivity.
Qed.

Lemma run_without_models_witness :
  result (script [] colors line_styles fresh) = inr tt /\
  axes (fig (final (script [] colors line_styles fresh))) =
    [decorate "Training Loss" "Loss" plt.empty_axes;
     decorate "PESQ Score" "PESQ" plt.empty_axes;
     decorate "STOI Score" "STOI" plt.empty_axes] /\
  map legend (axes (fig (final (script [] colors line_styles fresh)))) =
    [Some []; Some []; Some []] /\
  stdout (final (script [] colors line_styles fresh)) =
    stdout fresh ++ title_line ++ rule ++ Py.nl ++ header ++ Py.nl ++ rule ++ Py.nl ++
    rule ++ Py.nl.
Proof.
  apply (run_without_models [] colors line_styles fresh). reflexivity.
Defined.



(* ================================================================== *)
(** ** The configuration the script leaves behind *)

Lemma getitem_filter_kept {V : Type} (p : string * V -> bool)
    (l : Py.dict V) (k : string) :
  (forall v, p (k, v) = true) ->
  Py.getitem (filter p l) k = Py.getitem l k.
Proof.
  intros Hp. induction l as [| [k' v'] rest IH]; [reflexivity |].
  cbn [filter Py.getitem].
  destruct (String.eqb k' k) eqn:E.
  - apply String.eqb_eq in E. subst k'. rewrite Hp.
    cbn [Py.getitem]. now rewrite String.eqb_refl.
  - destruct (p (k', v')); [| exact IH].
    cbn [Py.getitem]. rewrite E. exact IH.
Qed.

Lemma configure_rcParams w :
  rcParams (final (configure w)) =
  setitem (setitem (setitem (setitem (setitem (setitem (setitem
    (filter plt.blacklisted (rcParams w))
    "figure.figsize" (RcSize 15 20)) "axes.grid" (RcBool true))
    "grid.alpha" (RcFloat 0.3%float)) "font.size" (RcInt 12))
    "axes.titlesize" (RcInt 14)) "axes.labelsize" (RcInt 12))
    "legend.fontsize" (RcInt 10).
Proof. reflexivity. Qed.

(** X17. Whether the run completes or raises, the configuration it leaves
    is the one of lines 46-53: each of the seven assigned keys holds the
    assigned value, each key [plt.style.use] never touches still holds what
    it held before the run (or is still absent), and nothing after line 53
    changes [rcParams]. *)
Theorem configuration_after_run (d : Data) (cs ls : list string) (w : World) :
  let rc := rcParams (final (script d cs ls w)) in
  Forall (fun kv => Py.getitem rc (fst kv) = inr (snd kv)) settings /\
  Forall (fun k => Py.getitem rc k = Py.getitem (rcParams w) k)
    plt.style_blacklist /\
  rc = rcParams (final (configure w)).
Proof.
  assert (Hrc : rcParams (final (script d cs ls w)) = rcParams (final (configure w))).
  { rewrite script_phases.
    pose proof (keeps_plot_loop
                  (fun w' => rcParams w' = rcParams (before_plot d cs ls w))
                  (fun _ _ H => H) (before_plot d cs ls w) eq_refl) as Hrc.
    destruct (plot_loop (before_plot d cs ls w)) as [[e | []] w1];
      cbn [final snd] in *.
    - rewrite Hrc. reflexivity.
    - destruct (report_only_prints (after_plot w1)) as [out ->].
      cbn [rcParams set_stdout].
      change (rcParams (after_plot w1)) with (rcParams w1).
      rewrite Hrc. reflexivity. }
  cbv zeta. rewrite Hrc, configure_rcParams.
  split; [| split; [| reflexivity]].
  - unfold settings.
    repeat (constructor;
            [cbn [fst snd];
             rewrite ?getitem_setitem_other by discriminate;
             apply getitem_setitem |]).
    constructor.
  - unfold plt.style_blacklist.
    repeat (constructor;
            [rewrite !getitem_setitem_other by discriminate;
             apply getitem_filter_kept; intros v; reflexivity |]).
    constructor.
Qed.
